(** * carecloud: the article / video page script

    Two copies of the page script exist in the repository:
    - [src/web/script.js], embedded below as module [Plain];
    - [src/unnamed/part_000], the copy with fall-back values and guards,
      embedded below as module [Defensive] (its lines starting with [#]
      are read as the comments they are written to be).

    Both are browser JavaScript working on the page's DOM.  The embedding
    keeps what the functions read and write: the two module-level arrays,
    the [innerHTML] of the two containers, the [src] of the player frame,
    the [active] class of the modal, and the calls to [alert] and
    [console.error].  Exceptions are explicit: every function is a state
    transformer that either completes or throws, and the state reached at
    the throw is kept, as in the source. *)

From Stdlib Require Import ZArith String Ascii List Lia.
From stdpp Require Import base tactics option list strings pretty.

Local Open Scope string_scope.
Local Open Scope list_scope.
Local Set Warnings "-register-all".

(** ** JavaScript values and the runtime operations the script uses *)

Module JS.

(** Numbers are the integers that JavaScript represents exactly and prints
    as plain decimal numerals: those from -2^53 to 2^53 (identifiers,
    lengths).  Other numbers (fractions, larger magnitudes) are outside
    the embedding. *)
Definition limit : Z := 9007199254740992.

Definition safe (z : Z) : bool := (Z.leb (- limit) z && Z.leb z limit)%bool.

Record number : Type := Number {
  number_value : Z;
  number_safe : safe number_value = true
}.

Definition clamp (z : Z) : Z := Z.max (- limit) (Z.min z limit).

Definition clamp_safe (z : Z) : safe (clamp z) = true.
Proof.
  unfold safe, clamp, limit. apply andb_true_iff.
  split; apply Z.leb_le; lia.
Qed.

(** The number written [z]; a length is never beyond the limit, a
    JavaScript array having fewer than 2^32 elements. *)
Definition number_of (z : Z) : number := Number (clamp z) (clamp_safe z).
Coercion number_of : Z >-> number.
Bind Scope Z_scope with number.

(** Values as [JSON.parse] produces them, plus [undefined]; an object is
    its list of own properties, looked up by key. *)
Inductive value : Type :=
| VUndefined
| VNull
| VBool (b : bool)
| VNum (n : number)
| VStr (s : string)
| VArr (elements : list value)
| VObj (properties : list (string * value)).

Inductive error : Type :=
| TypeError
| SyntaxError
| Error (message : string).

(** Expressions without side effects either yield a value or throw. *)
Inductive exn (A : Type) : Type :=
| Ok (a : A)
| Raise (e : error).
Arguments Ok {A} a.
Arguments Raise {A} e.

Definition exn_bind {A B} (m : exn A) (k : A -> exn B) : exn B :=
  match m with
  | Ok a => k a
  | Raise e => Raise e
  end.

Declare Scope exn_scope.
Delimit Scope exn_scope with exn.
Notation "'let?' x ':=' m 'in' k" := (exn_bind m (fun x => k))
  (at level 10, x name, m at level 100, k at level 200) : exn_scope.

(** The double quote character, and literals in which a backquote stands
    for it: [lit "<div class=`error`>"] is the text <div class="error">. *)
Definition dquote : ascii := "034"%char.
Definition backquote : ascii := "096"%char.

Fixpoint lit (s : string) : string :=
  match s with
  | EmptyString => EmptyString
  | String c rest =>
      String (if Ascii.eqb c backquote then dquote else c) (lit rest)
  end.

Fixpoint lookup_property (key : string) (properties : list (string * value))
  : value :=
  match properties with
  | [] => VUndefined
  | (k, v) :: rest =>
      if String.eqb k key then v else lookup_property key rest
  end.

(** [v.key] for the property names the script reads.  Reading a property of
    [undefined] or [null] throws; an array and a string own [length];
    every other miss is [undefined].  The script only ever compares a
    length with 0, so the length of a string is counted here in bytes. *)
Definition get (v : value) (key : string) : exn value :=
  match v with
  | VUndefined | VNull => Raise TypeError
  | VObj properties => Ok (lookup_property key properties)
  | VArr elements =>
      Ok (if String.eqb key "length"
          then VNum (Z.of_nat (length elements)) else VUndefined)
  | VStr s =>
      Ok (if String.eqb key "length"
          then VNum (Z.of_nat (String.length s)) else VUndefined)
  | VBool _ | VNum _ => Ok VUndefined
  end.

(** [!!v] *)
Definition truthy (v : value) : bool :=
  match v with
  | VUndefined | VNull => false
  | VBool b => b
  | VNum n => negb (Z.eqb (number_value n) 0)
  | VStr s => negb (String.eqb s EmptyString)
  | VArr _ | VObj _ => true
  end.

(** [a || b] *)
Definition or_else (a b : value) : value := if truthy a then a else b.

(** [v === 0] and [v === 'text']: strict equality against a primitive. *)
Definition is_number (v : value) (n : Z) : bool :=
  match v with
  | VNum m => Z.eqb (number_value m) n
  | _ => false
  end.

Definition is_string (v : value) (s : string) : bool :=
  match v with
  | VStr t => String.eqb t s
  | _ => false
  end.

(** The object has an own property of that name. *)
Fixpoint owns (key : string) (properties : list (string * value)) : bool :=
  match properties with
  | [] => false
  | (k, _) :: rest => String.eqb k key || owns key rest
  end.

(** The string a template literal puts in place of [${v}]: the conversion
    of [v] to a string.  An object is converted by its [toString]: the one
    every object inherits gives [object Object]; an own property of that
    name, which in a parsed document is never a function, hides it, and
    the conversion throws a TypeError (the inherited [valueOf] returns the
    object itself and does not help).  An array is converted by joining
    the conversions of its elements with commas, [undefined] and [null]
    giving nothing; the first element that cannot be converted ends the
    conversion. *)
Fixpoint to_string (v : value) : exn string :=
  match v with
  | VUndefined => Ok "undefined"
  | VNull => Ok "null"
  | VBool true => Ok "true"
  | VBool false => Ok "false"
  | VNum n => Ok (pretty (number_value n))
  | VStr s => Ok s
  | VArr elements =>
      (let? parts :=
         (fix each (l : list value) : exn (list string) :=
            match l with
            | [] => Ok []
            | e :: rest =>
                let? s := match e with
                          | VUndefined | VNull => Ok EmptyString
                          | _ => to_string e
                          end in
                let? ss := each rest in
                Ok (s :: ss)
            end) elements in
       Ok (String.concat "," parts))%exn
  | VObj properties =>
      if owns "toString" properties then Raise TypeError
      else Ok "[object Object]"
  end.

(** The conversions of the elements of an array, as [to_string] makes
    them. *)
Fixpoint each_to_string (l : list value) : exn (list string) :=
  match l with
  | [] => Ok []
  | e :: rest =>
      (let? s := match e with
                 | VUndefined | VNull => Ok EmptyString
                 | _ => to_string e
                 end in
       let? ss := each_to_string rest in
       Ok (s :: ss))%exn
  end.

(** [v.map(f)] and [v.filter(f)] exist on arrays only: on [undefined] and
    [null] the property read throws, on any other value the property is
    not a function and the call throws. *)
Definition as_array (v : value) : exn (list value) :=
  match v with
  | VArr elements => Ok elements
  | _ => Raise TypeError
  end.

(** [elements.map(f)]: the callback runs on the elements from left to
    right and the first throw ends the call. *)
Fixpoint array_map {B} (f : value -> exn B) (elements : list value)
  : exn (list B) :=
  match elements with
  | [] => Ok []
  | x :: rest =>
      (let? y := f x in
       let? ys := array_map f rest in
       Ok (y :: ys))%exn
  end.

(** [elements.filter(f)] *)
Fixpoint array_filter (f : value -> exn bool) (elements : list value)
  : exn (list value) :=
  match elements with
  | [] => Ok []
  | x :: rest =>
      (let? keep := f x in
       let? kept := array_filter f rest in
       Ok (if keep then x :: kept else kept))%exn
  end.

(** [strings.join('')] *)
Definition join (strings : list string) : string :=
  String.concat EmptyString strings.

(** The values that are not objects: what an argument written in the text
    of an inline handler can be compared by. *)
Inductive primitive : Type :=
| PUndefined
| PNull
| PBool (b : bool)
| PNum (n : number)
| PStr (s : string).

(** [v === x] for a primitive [x]: same type and same value; an object or
    an array is never equal to a primitive. *)
Definition strict_equals (v : value) (x : primitive) : bool :=
  match v, x with
  | VUndefined, PUndefined => true
  | VNull, PNull => true
  | VBool a, PBool b => Bool.eqb a b
  | VNum m, PNum n => Z.eqb (number_value m) (number_value n)
  | VStr s, PStr t => String.eqb s t
  | _, _ => false
  end.

(** [elements.find(f)]: the first element the callback accepts,
    [undefined] when it accepts none. *)
Fixpoint array_find (f : value -> exn bool) (elements : list value)
  : exn value :=
  match elements with
  | [] => Ok VUndefined
  | x :: rest =>
      (let? hit := f x in
       if hit then Ok x else array_find f rest)%exn
  end.

End JS.

Import JS.

(** ** The page: what the script reads and writes *)

Module Page.

(** The state shared by all functions of the script.  The elements the
    script looks up by id ([articles-container], [videos-container],
    [videoModal], [videoIframe]) are taken to exist, as the page that loads
    the script provides them. *)
Record page : Type := mkPage {
  articlesData : value;             (* let articlesData *)
  videosData : value;               (* let videosData *)
  articles_container : string;      (* #articles-container .innerHTML *)
  videos_container : string;        (* #videos-container .innerHTML *)
  videoIframe_src : string;         (* #videoIframe .src *)
  videoModal_active : bool;         (* #videoModal .classList has 'active' *)
  alerts : list string;             (* alert(message), oldest first *)
  console : list (string * error)   (* console.error(message, error) *)
}.

(** A statement runs from a page state and completes or throws; either way
    it leaves a page state behind. *)
Inductive completion (A : Type) : Type :=
| Normal (a : A)
| Thrown (e : error).
Arguments Normal {A} a.
Arguments Thrown {A} e.

Definition script (A : Type) : Type := page -> completion A * page.

Definition ret {A} (a : A) : script A := fun p => (Normal a, p).

Definition bind {A B} (m : script A) (k : A -> script B) : script B :=
  fun p =>
    match m p with
    | (Normal a, p') => k a p'
    | (Thrown e, p') => (Thrown e, p')
    end.

Definition throw {A} (e : error) : script A := fun p => (Thrown e, p).

(** An expression evaluated inside a statement. *)
Definition lift {A} (m : exn A) : script A :=
  match m with
  | Ok a => ret a
  | Raise e => throw e
  end.

(** [try { body } catch (error) { handler }] *)
Definition try_catch (body : script unit) (handler : error -> script unit)
  : script unit :=
  fun p =>
    match body p with
    | (Normal a, p') => (Normal a, p')
    | (Thrown e, p') => handler e p'
    end.

Declare Scope script_scope.
Delimit Scope script_scope with script.
Notation "'do' x <- m ; k" := (bind m (fun x => k))
  (at level 10, x name, m at level 100, k at level 200) : script_scope.
Notation "m ;; k" := (bind m (fun _ => k))
  (at level 100, k at level 200, right associativity) : script_scope.

Definition read : script page := fun p => (Normal p, p).

(** Assignments to the parts of the page. *)
Definition with_articlesData (v : value) (p : page) : page :=
  mkPage v (videosData p) (articles_container p) (videos_container p)
    (videoIframe_src p) (videoModal_active p) (alerts p) (console p).

Definition with_videosData (v : value) (p : page) : page :=
  mkPage (articlesData p) v (articles_container p) (videos_container p)
    (videoIframe_src p) (videoModal_active p) (alerts p) (console p).

Definition with_articles_container (html : string) (p : page) : page :=
  mkPage (articlesData p) (videosData p) html (videos_container p)
    (videoIframe_src p) (videoModal_active p) (alerts p) (console p).

Definition with_videos_container (html : string) (p : page) : page :=
  mkPage (articlesData p) (videosData p) (articles_container p) html
    (videoIframe_src p) (videoModal_active p) (alerts p) (console p).

Definition with_videoIframe_src (url : string) (p : page) : page :=
  mkPage (articlesData p) (videosData p) (articles_container p)
    (videos_container p) url (videoModal_active p) (alerts p) (console p).

Definition with_videoModal_active (b : bool) (p : page) : page :=
  mkPage (articlesData p) (videosData p) (articles_container p)
    (videos_container p) (videoIframe_src p) b (alerts p) (console p).

Definition with_alert (message : string) (p : page) : page :=
  mkPage (articlesData p) (videosData p) (articles_container p)
    (videos_container p) (videoIframe_src p) (videoModal_active p)
    (alerts p ++ [message]) (console p).

Definition with_console_error (message : string) (e : error) (p : page)
  : page :=
  mkPage (articlesData p) (videosData p) (articles_container p)
    (videos_container p) (videoIframe_src p) (videoModal_active p)
    (alerts p) (console p ++ [(message, e)]).

Definition modify (f : page -> page) : script unit :=
  fun p => (Normal tt, f p).

Definition set_articlesData (v : value) : script unit :=
  modify (with_articlesData v).
Definition set_videosData (v : value) : script unit :=
  modify (with_videosData v).
Definition set_articles_container (html : string) : script unit :=
  modify (with_articles_container html).
Definition set_videos_container (html : string) : script unit :=
  modify (with_videos_container html).
Definition set_videoIframe_src (url : string) : script unit :=
  modify (with_videoIframe_src url).
Definition set_videoModal_active (b : bool) : script unit :=
  modify (with_videoModal_active b).
Definition alert (message : string) : script unit :=
  modify (with_alert message).
Definition console_error (message : string) (e : error) : script unit :=
  modify (with_console_error message e).

(** The page a top-level call or an event handler leaves behind; an
    exception nobody catches ends the handler and keeps the state. *)
Definition exec (m : script unit) (p : page) : page := snd (m p).

(** Whether the call threw. *)
Definition throws (m : script unit) (p : page) : bool :=
  match fst (m p) with
  | Normal _ => false
  | Thrown _ => true
  end.

(** What [await fetch('articles/data.json')] and then
    [await response.json()] can give: the fetch is rejected (network
    failure, a TypeError), or a response arrives with its [ok] flag and a
    body that is JSON text or not. *)
Inductive body : Type :=
| Json (data : value)
| NotJson.

Inductive fetch_outcome : Type :=
| Rejected
| Responded (ok : bool) (content : body).

Definition fetched (r : fetch_outcome) : exn (bool * body) :=
  match r with
  | Rejected => Raise TypeError
  | Responded ok content => Ok (ok, content)
  end.

(** [response.json()] *)
Definition json (content : body) : exn value :=
  match content with
  | Json data => Ok data
  | NotJson => Raise SyntaxError
  end.

(** What happens on the page after the script is installed: a loader
    resumes with the outcome of its fetch, a filter button is clicked, a
    thumbnail is clicked, the modal is dismissed.  A loader touches the
    page only after both of its [await]s, so its whole effect belongs to
    the one event of its resumption. *)
Inductive event : Type :=
| FetchedArticles (r : fetch_outcome)
| FetchedVideos (r : fetch_outcome)
| FilterArticles (category : string)
| FilterVideos (category : string)
| OpenVideo (youtubeId : value)
| CloseModal.

(** The page after a sequence of events, the first of the list first. *)
Fixpoint run (handle : event -> page -> page) (events : list event)
  (p : page) : page :=
  match events with
  | [] => p
  | e :: rest => run handle rest (handle e p)
  end.

End Page.

Import Page.
Local Open Scope script_scope.
Local Open Scope exn_scope.

(** ** [src/web/script.js] *)

Module Plain.

Definition articles_error : string :=
  lit "<div class=`error`>Ошибка загрузки статей</div>".

Definition videos_error : string :=
  lit "<div class=`error`>Ошибка загрузки видео</div>".

Definition no_articles : string :=
  lit "<div class=`loading`>Нет статей</div>".

Definition no_videos : string :=
  lit "<div class=`loading`>Нет видео</div>".

(** The template literal of [renderArticles], applied to one article. *)
Definition articleCard (article : value) : exn string :=
  let? category := get article "category" in
  let? category := to_string category in
  let? image := get article "image" in
  let? image := to_string image in
  let? tag := get article "tag" in
  let? tag := to_string tag in
  let? title := get article "title" in
  let? title := to_string title in
  let? excerpt := get article "excerpt" in
  let? excerpt := to_string excerpt in
  let? id := get article "id" in
  let? id := to_string id in
  Ok (lit "
        <div class=`article-card` data-category=`" +:+
      category +:+
      lit "`>
            <div class=`article-image` style=`background-image: url('" +:+
      image +:+
      lit "')`></div>
            <div class=`article-content`>
                <span class=`article-tag`>" +:+
      tag +:+
      lit "</span>
                <h3 class=`article-title`>" +:+
      title +:+
      lit "</h3>
                <p class=`article-excerpt`>" +:+
      excerpt +:+
      lit "</p>
                <a href=`#` class=`article-link` onclick=`openArticle(" +:+
      id +:+
      lit ")`>
                    Читать статью <span>→</span>
                </a>
            </div>
        </div>
    ").

(** [tag => `<span class="video-tag">${tag}</span>`] *)
Definition videoTag (tag : value) : exn string :=
  let? tag := to_string tag in
  Ok (lit "<span class=`video-tag`>" +:+ tag +:+ "</span>").

(** The template literal of [renderVideos], applied to one video. *)
Definition videoCard (video : value) : exn string :=
  let? category := get video "category" in
  let? category := to_string category in
  let? thumbnail := get video "thumbnail" in
  let? thumbnail := to_string thumbnail in
  let? youtubeId := get video "youtubeId" in
  let? youtubeId := to_string youtubeId in
  let? title := get video "title" in
  let? title := to_string title in
  let? channel := get video "channel" in
  let? channel := to_string channel in
  let? duration := get video "duration" in
  let? duration := to_string duration in
  let? tags := get video "tags" in
  let? tag_list := as_array tags in
  let? spans := array_map videoTag tag_list in
  Ok (lit "
        <div class=`video-card` data-category=`" +:+
      category +:+
      lit "`>
            <div class=`video-thumbnail` style=`background-image: url('" +:+
      thumbnail +:+
      lit "')`
                 onclick=`openVideo('" +:+
      youtubeId +:+
      lit "')`>
                <div class=`play-button`>▶</div>
            </div>
            <div class=`video-info`>
                <h3 class=`video-title`>" +:+
      title +:+
      lit "</h3>
                <div class=`video-channel`>" +:+
      channel +:+
      lit " • " +:+
      duration +:+
      lit "</div>
                <div class=`video-tags`>
                    " +:+
      join spans +:+
      lit "
                </div>
            </div>
        </div>
    ").

Definition renderArticles (articles : value) : script unit :=
  do len <- lift (get articles "length");
  if is_number len 0 then set_articles_container no_articles
  else
    do elements <- lift (as_array articles);
    do cards <- lift (array_map articleCard elements);
    set_articles_container (join cards).

Definition renderVideos (videos : value) : script unit :=
  do len <- lift (get videos "length");
  if is_number len 0 then set_videos_container no_videos
  else
    do elements <- lift (as_array videos);
    do cards <- lift (array_map videoCard elements);
    set_videos_container (join cards).

Definition loadArticles (r : fetch_outcome) : script unit :=
  try_catch
    (do response <- lift (fetched r);
     do data <- lift (json (snd response));
     do articles <- lift (get data "articles");
     set_articlesData articles;;
     do p <- read;
     renderArticles (articlesData p))
    (fun error =>
       console_error "Ошибка загрузки статей:" error;;
       set_articles_container articles_error).

Definition loadVideos (r : fetch_outcome) : script unit :=
  try_catch
    (do response <- lift (fetched r);
     do data <- lift (json (snd response));
     do videos <- lift (get data "videos");
     set_videosData videos;;
     do p <- read;
     renderVideos (videosData p))
    (fun error =>
       console_error "Ошибка загрузки видео:" error;;
       set_videos_container videos_error).

(** [a => a.category === category] *)
Definition category_matches (category : string) (a : value) : exn bool :=
  let? c := get a "category" in
  Ok (is_string c category).

Definition filterArticles (category : string) : script unit :=
  do p <- read;
  if String.eqb category "all" then renderArticles (articlesData p)
  else
    do elements <- lift (as_array (articlesData p));
    do filtered <- lift (array_filter (category_matches category) elements);
    renderArticles (VArr filtered).

Definition filterVideos (category : string) : script unit :=
  do p <- read;
  if String.eqb category "all" then renderVideos (videosData p)
  else
    do elements <- lift (as_array (videosData p));
    do filtered <- lift (array_filter (category_matches category) elements);
    renderVideos (VArr filtered).

Definition embed_url (youtubeId : value) : exn string :=
  let? youtubeId := to_string youtubeId in
  Ok ("https://www.youtube.com/embed/" +:+ youtubeId +:+ "?autoplay=1").

Definition openVideo (youtubeId : value) : script unit :=
  do url <- lift (embed_url youtubeId);
  set_videoIframe_src url;;
  set_videoModal_active true.

Definition closeModal : script unit :=
  set_videoIframe_src EmptyString;;
  set_videoModal_active false.

Definition handle (e : event) : page -> page :=
  match e with
  | FetchedArticles r => exec (loadArticles r)
  | FetchedVideos r => exec (loadVideos r)
  | FilterArticles category => exec (filterArticles category)
  | FilterVideos category => exec (filterVideos category)
  | OpenVideo youtubeId => exec (openVideo youtubeId)
  | CloseModal => exec closeModal
  end.

End Plain.

(** ** [src/unnamed/part_000] *)

Module Defensive.

Section Runtime.

(** [String.prototype.toLowerCase] of the JavaScript runtime.  Nothing is
    assumed about it, so every result below holds for the real one. *)
Variable toLowerCase : string -> string.

Definition articles_error : string :=
  lit "<div class=`error`>❌ Не удалось загрузить статьи</div>".

Definition videos_error : string :=
  lit "<div class=`error`>❌ Не удалось загрузить видео</div>".

Definition no_articles : string :=
  lit "<div class=`loading`>Нет статей</div>".

Definition no_videos : string :=
  lit "<div class=`loading`>Нет видео</div>".

Definition video_unavailable : string := "🎥 Видео временно недоступно".

(** The template literal of [renderArticles], applied to one article. *)
Definition articleCard (article : value) : exn string :=
  let? category := get article "category" in
  let? category := to_string (or_else category (VStr "все")) in
  let? image := get article "image" in
  let? image := to_string (or_else image (VStr "https://via.placeholder.com/300x200")) in
  let? tag := get article "tag" in
  let? tag := to_string (or_else tag (VStr "статья")) in
  let? title := get article "title" in
  let? title := to_string title in
  let? excerpt := get article "excerpt" in
  let? excerpt := to_string (or_else excerpt (VStr EmptyString)) in
  let? id := get article "id" in
  let? id := to_string id in
  Ok (lit "
        <div class=`article-card` data-category=`" +:+
      category +:+
      lit "`>
            <div class=`article-image` style=`background-image: url('" +:+
      image +:+
      lit "')`></div>
            <div class=`article-content`>
                <span class=`article-tag`>" +:+
      tag +:+
      lit "</span>
                <h3 class=`article-title`>" +:+
      title +:+
      lit "</h3>
                <p class=`article-excerpt`>" +:+
      excerpt +:+
      lit "</p>
                <a href=`#` class=`article-link` onclick=`openArticle(" +:+
      id +:+
      lit ")`>
                    Читать статью <span>→</span>
                </a>
            </div>
        </div>
    ").

(** [tag => `<span class="video-tag">${tag}</span>`] *)
Definition videoTag (tag : value) : exn string :=
  let? tag := to_string tag in
  Ok (lit "<span class=`video-tag`>" +:+ tag +:+ "</span>").

(** The template literal of [renderVideos], applied to one video. *)
Definition videoCard (video : value) : exn string :=
  let? category := get video "category" in
  let? category := to_string (or_else category (VStr "все")) in
  let? thumbnail := get video "thumbnail" in
  let? thumbnail := to_string (or_else thumbnail (VStr "https://via.placeholder.com/300x180")) in
  let? youtubeId := get video "youtubeId" in
  let? youtubeId := to_string (or_else youtubeId (VStr EmptyString)) in
  let? title := get video "title" in
  let? title := to_string title in
  let? channel := get video "channel" in
  let? channel := to_string (or_else channel (VStr "Канал")) in
  let? duration := get video "duration" in
  let? duration := to_string (or_else duration (VStr "00:00")) in
  let? tags := get video "tags" in
  let? tag_list := as_array (or_else tags (VArr [])) in
  let? spans := array_map videoTag tag_list in
  Ok (lit "
        <div class=`video-card` data-category=`" +:+
      category +:+
      lit "`>
            <div class=`video-thumbnail` style=`background-image: url('" +:+
      thumbnail +:+
      lit "')`
                 onclick=`openVideo('" +:+
      youtubeId +:+
      lit "')`>
                <div class=`play-button`>▶</div>
            </div>
            <div class=`video-info`>
                <h3 class=`video-title`>" +:+
      title +:+
      lit "</h3>
                <div class=`video-channel`>" +:+
      channel +:+
      lit " • " +:+
      duration +:+
      lit "</div>
                <div class=`video-tags`>
                    " +:+
      join spans +:+
      lit "
                </div>
            </div>
        </div>
    ").

(** [!v || v.length === 0] *)
Definition missing_or_empty (v : value) : exn bool :=
  if negb (truthy v) then Ok true
  else
    let? len := get v "length" in
    Ok (is_number len 0).

Definition renderArticles (articles : value) : script unit :=
  do none <- lift (missing_or_empty articles);
  if none then set_articles_container no_articles
  else
    do elements <- lift (as_array articles);
    do cards <- lift (array_map articleCard elements);
    set_articles_container (join cards).

Definition renderVideos (videos : value) : script unit :=
  do none <- lift (missing_or_empty videos);
  if none then set_videos_container no_videos
  else
    do elements <- lift (as_array videos);
    do cards <- lift (array_map videoCard elements);
    set_videos_container (join cards).

(** [if (!response.ok) throw new Error('Ошибка загрузки')] *)
Definition check_ok (ok : bool) : exn unit :=
  if negb ok then Raise (Error "Ошибка загрузки") else Ok tt.

Definition loadArticles (r : fetch_outcome) : script unit :=
  try_catch
    (do response <- lift (fetched r);
     lift (check_ok (fst response));;
     do data <- lift (json (snd response));
     do articles <- lift (get data "articles");
     set_articlesData (or_else articles (VArr []));;
     do p <- read;
     renderArticles (articlesData p))
    (fun error =>
       console_error "Ошибка загрузки статей:" error;;
       set_articles_container articles_error).

Definition loadVideos (r : fetch_outcome) : script unit :=
  try_catch
    (do response <- lift (fetched r);
     lift (check_ok (fst response));;
     do data <- lift (json (snd response));
     do videos <- lift (get data "videos");
     set_videosData (or_else videos (VArr []));;
     do p <- read;
     renderVideos (videosData p))
    (fun error =>
       console_error "Ошибка загрузки видео:" error;;
       set_videos_container videos_error).

(** [s.toLowerCase()]: a method of strings only. *)
Definition lower (v : value) : exn string :=
  match v with
  | VStr s => Ok (toLowerCase s)
  | _ => Raise TypeError
  end.

(** [a => (a.category || '').toLowerCase() === category] *)
Definition category_matches (category : string) (a : value) : exn bool :=
  let? c := get a "category" in
  let? lowered := lower (or_else c (VStr EmptyString)) in
  Ok (String.eqb lowered category).

Definition filterArticles (category : string) : script unit :=
  do p <- read;
  do none <- lift (missing_or_empty (articlesData p));
  if none then ret tt
  else if String.eqb category "all" then renderArticles (articlesData p)
  else
    do elements <- lift (as_array (articlesData p));
    do filtered <- lift (array_filter (category_matches category) elements);
    renderArticles (VArr filtered).

Definition filterVideos (category : string) : script unit :=
  do p <- read;
  do none <- lift (missing_or_empty (videosData p));
  if none then ret tt
  else if String.eqb category "all" then renderVideos (videosData p)
  else
    do elements <- lift (as_array (videosData p));
    do filtered <- lift (array_filter (category_matches category) elements);
    renderVideos (VArr filtered).

Definition embed_url (youtubeId : value) : exn string :=
  let? youtubeId := to_string youtubeId in
  Ok ("https://www.youtube.com/embed/" +:+ youtubeId +:+ "?autoplay=1").

Definition openVideo (youtubeId : value) : script unit :=
  if negb (truthy youtubeId) then alert video_unavailable
  else
    do url <- lift (embed_url youtubeId);
    set_videoIframe_src url;;
    set_videoModal_active true.

Definition closeModal : script unit :=
  set_videoIframe_src EmptyString;;
  set_videoModal_active false.

Definition handle (e : event) : page -> page :=
  match e with
  | FetchedArticles r => exec (loadArticles r)
  | FetchedVideos r => exec (loadVideos r)
  | FilterArticles category => exec (filterArticles category)
  | FilterVideos category => exec (filterVideos category)
  | OpenVideo youtubeId => exec (openVideo youtubeId)
  | CloseModal => exec closeModal
  end.

Definition article_notice : string :=
  "📖 Полная версия статьи будет доступна в следующем обновлении".

(** [a => a.id === id] *)
Definition id_matches (id : primitive) (a : value) : exn bool :=
  let? i := get a "id" in
  Ok (strict_equals i id).

Definition openArticle (id : primitive) : script unit :=
  do p <- read;
  do elements <- lift (as_array (articlesData p));
  do article <- lift (array_find (id_matches id) elements);
  if truthy article then alert article_notice else ret tt.

End Runtime.

End Defensive.

(** Lower-casing of the letters A to Z, leaving every other byte alone: what
    [toLowerCase] does on text made of ASCII characters.  The concrete runs
    below use it on such text. *)
Definition ascii_lower (c : ascii) : ascii :=
  let n := nat_of_ascii c in
  if (Nat.leb 65 n && Nat.leb n 90)%bool then ascii_of_nat (n + 32) else c.

Fixpoint ascii_toLowerCase (s : string) : string :=
  match s with
  | EmptyString => EmptyString
  | String c rest => String (ascii_lower c) (ascii_toLowerCase rest)
  end.

(** The page before the script has loaded anything: both arrays are [[]],
    the frame has no source and the modal is not active, as the markup
    added at the end of the script has them. *)
Definition initial_page (articles_html videos_html : string) : page :=
  mkPage (VArr []) (VArr []) articles_html videos_html EmptyString false [] [].

(** An object, with its properties given as text. *)
Definition obj (properties : list (string * string)) : value :=
  VObj (List.map (fun kv => (fst kv, VStr (snd kv))) properties).

(** ** Vocabulary of the statements *)

(** A value whose properties can be read: anything but [undefined] and
    [null]. *)
Definition defined (v : value) : bool :=
  match v with
  | VUndefined | VNull => false
  | _ => true
  end.

Definition is_array (v : value) : bool :=
  match v with
  | VArr _ => true
  | _ => false
  end.

Definition is_text (v : value) : bool :=
  match v with
  | VStr _ => true
  | _ => false
  end.

(** The property [key] of an item, [undefined] when there is none. *)
Definition field (key : string) (a : value) : value :=
  match get a key with
  | Ok v => v
  | Raise _ => VUndefined
  end.

(** The item's category is text, or there is none. *)
Definition category_optional (a : value) : bool :=
  defined a &&
  (negb (truthy (field "category" a)) || is_text (field "category" a)).

(** A value that can be converted to text: any value but an object with
    an own property named [toString], or an array holding, at any depth, a
    value that cannot. *)
Fixpoint printable (v : value) : bool :=
  match v with
  | VArr elements => forallb printable elements
  | VObj properties => negb (owns "toString" properties)
  | _ => true
  end.

(** The properties a card displays, besides the tags of a video. *)
Definition article_fields : list string :=
  ["category"; "image"; "tag"; "title"; "excerpt"; "id"].

Definition video_fields : list string :=
  ["category"; "thumbnail"; "youtubeId"; "title"; "channel"; "duration"].

Definition fields_printable (keys : list string) (a : value) : bool :=
  forallb (fun key => printable (field key a)) keys.

(** An article item: a value other than [null] and [undefined] whose
    displayed properties, those it has, can be converted to text. *)
Definition article_item (a : value) : bool :=
  defined a && fields_printable article_fields a.

(** An array of values that can be converted to text. *)
Definition tags_printable (v : value) : bool :=
  match v with
  | VArr tags => forallb printable tags
  | _ => false
  end.

(** A video item: it carries an array of tags, and its tags and its
    displayed properties, those it has, can be converted to text. *)
Definition video_item (v : value) : bool :=
  fields_printable video_fields v && tags_printable (field "tags" v).

(** The same, except that the tags may also be missing (or falsy). *)
Definition video_item_optional_tags (v : value) : bool :=
  defined v && fields_printable video_fields v &&
  (negb (truthy (field "tags" v)) || tags_printable (field "tags" v)).

(** The item's category is the text [c]. *)
Definition has_category (c : string) (a : value) : bool :=
  is_string (field "category" a) c.


(** The category of an item as the defensive filter reads it: the text of
    the property, the empty text when there is none. *)
Definition category_text (a : value) : string :=
  match field "category" a with
  | VStr s => s
  | _ => EmptyString
  end.

(** The defensive filter's test on an item: its category, lower-cased,
    against the target as given. *)
Definition matches_lowered (toLowerCase : string -> string) (c : string)
  (a : value) : bool :=
  String.eqb (toLowerCase (category_text a)) c.

(** The item's category (empty when there is none) and [c] are equal up
    to letter case. *)
Definition matches_ignoring_case (toLowerCase : string -> string)
  (c : string) (a : value) : bool :=
  String.eqb (toLowerCase (category_text a)) (toLowerCase c).


(** An object has a property of that name. *)
Fixpoint has_key (key : string) (properties : list (string * value)) : bool :=
  match properties with
  | [] => false
  | (k, _) :: rest => String.eqb k key || has_key key rest
  end.

(** A fetch that failed: no response, or a response whose status is not a
    success. *)
Definition failed (r : fetch_outcome) : bool :=
  match r with
  | Rejected => true
  | Responded ok _ => negb ok
  end.

(** The two kinds of content and what belongs to each. *)
Inductive content : Type := Articles | Videos.

Definition key_of (k : content) : string :=
  match k with
  | Articles => "articles"
  | Videos => "videos"
  end.

Definition fetched_event (k : content) (r : fetch_outcome) : event :=
  match k with
  | Articles => FetchedArticles r
  | Videos => FetchedVideos r
  end.

Definition is_fetched_event (k : content) (e : event) : bool :=
  match k, e with
  | Articles, FetchedArticles _ => true
  | Videos, FetchedVideos _ => true
  | _, _ => false
  end.

Definition data_of (k : content) (p : page) : value :=
  match k with
  | Articles => articlesData p
  | Videos => videosData p
  end.

Definition container_of (k : content) (p : page) : string :=
  match k with
  | Articles => articles_container p
  | Videos => videos_container p
  end.

(** The placeholder of each kind, as the page shows it (the two scripts
    use the same texts). *)
Definition placeholder_of (k : content) : string :=
  match k with
  | Articles => lit "<div class=`loading`>Нет статей</div>"
  | Videos => lit "<div class=`loading`>Нет видео</div>"
  end.


(** The opening of a card element and the heading that carries a title, as
    the markup of each kind has them. *)
Definition card_opening (k : content) : string :=
  match k with
  | Articles => lit "<div class=`article-card`"
  | Videos => lit "<div class=`video-card`"
  end.

Definition card_heading (k : content) (title : string) : string :=
  match k with
  | Articles => lit "<h3 class=`article-title`>" +:+ title +:+ "</h3>"
  | Videos => lit "<h3 class=`video-title`>" +:+ title +:+ "</h3>"
  end.

(** [text] is a card of [item]: markup in which a card element of the kind
    opens and, further on, the heading carries the title of the item. *)
Definition card_of (k : content) (item : value) (text : string) : Prop :=
  exists title before between after : string,
    to_string (field "title" item) = Ok title /\
    text =
      before +:+ card_opening k +:+ between +:+ card_heading k title +:+
      after.

(** [html] is made of one card per item, in the order of the items: the
    text that [card] gives for each item, which is a card of that item. *)
Definition cards_of (k : content) (card : value -> exn string)
  (items : list value) (html : string) : Prop :=
  exists cards : list string,
    Forall2 (fun item text => card item = Ok text /\ card_of k item text)
      items cards /\
    html = join cards.

(** What a container shows for [items]: the placeholder when there are
    none, one card per item otherwise. *)
Definition shows (k : content) (card : value -> exn string)
  (placeholder : string) (items : list value) (html : string) : Prop :=
  match items with
  | [] => html = placeholder
  | _ :: _ => cards_of k card items html
  end.

(** The call [m] made on page [p] completes, leaves the container of kind
    [k] showing [shown], and leaves the array of that kind equal to
    [items]. *)
Definition renders (k : content) (card : value -> exn string)
  (placeholder : string) (items shown : list value) (m : script unit)
  (p : page) : Prop :=
  throws m p = false /\
  shows k card placeholder shown (container_of k (exec m p)) /\
  data_of k (exec m p) = VArr items.

(** [items] is the loaded array of kind [k] on page [p]: the loader of
    that kind resumed with a successful response whose document holds the
    array [items], and any events other than that fetch followed. *)
Definition loaded (handle : event -> page -> page) (k : content)
  (items : list value) (p : page) : Prop :=
  exists (p0 : page) (data : value) (events : list event),
    get data (key_of k) = Ok (VArr items) /\
    Forall (fun e => is_fetched_event k e = false) events /\
    p = run handle events
          (handle (fetched_event k (Responded true (Json data))) p0).

(** ** Concrete data used in the examples *)

Definition sleep_article : value :=
  obj [("category", "Sleep"); ("title", "Rest")].

Definition mood_article : value :=
  obj [("category", "mood"); ("title", "Calm")].

Definition untagged_video : value :=
  obj [("title", "Breathing"); ("youtubeId", "abc123")].

Definition tagged_video : value :=
  VObj [("title", VStr "Breathing"); ("category", VStr "sleep");
        ("tags", VArr [VStr "calm"; VStr "night"])].

Definition document (articles videos : list value) : value :=
  VObj [("articles", VArr articles); ("videos", VArr videos)].

Definition blank : page := initial_page "..." "...".

(** An article whose title cannot be converted to text. *)
Definition untitled_article : value :=
  VObj [("category", VStr "mood");
        ("title", VObj [("toString", VNum 1)])].

Definition sample_document : value :=
  document [sleep_article; mood_article] [tagged_video].

(** The page of each copy after a document with that one article was
    fetched. *)
Definition untitled_document : value := document [untitled_article] [].

Definition untitled_plain_page : page :=
  Plain.handle (FetchedArticles (Responded true (Json untitled_document)))
    blank.

Definition untitled_defensive_page : page :=
  Defensive.handle ascii_toLowerCase
    (FetchedArticles (Responded true (Json untitled_document))) blank.

(** An article whose category is the lower-case spelling of that of
    [sleep_article]. *)
Definition nap_article : value :=
  obj [("category", "sleep"); ("title", "Nap")].

Definition sample_events : list event :=
  [FilterArticles "mood"; OpenVideo (VStr "abc123"); CloseModal].

(** The sample document loaded as articles, and then a few events. *)
Definition plain_page : page :=
  run Plain.handle sample_events
    (Plain.handle
       (FetchedArticles (Responded true (Json sample_document))) blank).

Definition defensive_page : page :=
  run (Defensive.handle ascii_toLowerCase) sample_events
    (Defensive.handle ascii_toLowerCase
       (FetchedArticles (Responded true (Json sample_document))) blank).

(** ** Further vocabulary *)

Definition is_object (v : value) : bool :=
  match v with
  | VObj _ => true
  | _ => false
  end.

(** The events that belong to a kind of content: its fetch and its
    filter. *)
Definition is_event_of (k : content) (e : event) : bool :=
  match k, e with
  | Articles, (FetchedArticles _ | FilterArticles _) => true
  | Videos, (FetchedVideos _ | FilterVideos _) => true
  | _, _ => false
  end.

(** The fetch brought no document: no response, or a body that is not
    JSON. *)
Definition no_document (r : fetch_outcome) : bool :=
  match r with
  | Rejected => true
  | Responded _ NotJson => true
  | Responded _ (Json _) => false
  end.

(** The player has a source exactly when the modal is active. *)
Definition modal_consistent (p : page) : Prop :=
  videoModal_active p = negb (String.eqb (videoIframe_src p) EmptyString).

(** Between [p] and [p'] a loader either logged nothing, or logged one
    line with [message] and left [html] in the container of kind [k]. *)
Definition settled (k : content) (message html : string) (p p' : page)
  : Prop :=
  console p' = console p \/
  exists e : error,
    console p' = console p ++ [(message, e)] /\ container_of k p' = html.

(** What a renderer or a filter can do to a page: throw, complete without
    touching it, or complete having put markup into its container. *)
Inductive effect : Type :=
| Fails (e : error)
| Leaves
| Paints (html : string).

Definition outcome (set : string -> page -> page) (o : effect) (p : page)
  : completion unit * page :=
  match o with
  | Fails e => (Thrown e, p)
  | Leaves => (Normal tt, p)
  | Paints html => (Normal tt, set html p)
  end.

(** An article none of whose optional properties is missing or falsy. *)
Definition complete_article (a : value) : bool :=
  defined a && truthy (field "category" a) && truthy (field "image" a) &&
  truthy (field "tag" a) && truthy (field "excerpt" a).

(** A video none of whose optional properties is missing or falsy, with
    an array of tags. *)
Definition complete_video (v : value) : bool :=
  truthy (field "category" v) && truthy (field "thumbnail" v) &&
  truthy (field "youtubeId" v) && truthy (field "channel" v) &&
  truthy (field "duration" v) && is_array (field "tags" v).

(** Some loaded article has the identifier [id]. *)
Definition has_article (id : primitive) (items : list value) : bool :=
  existsb (fun a => strict_equals (field "id" a) id) items.

Definition numbered_article : value :=
  VObj [("id", VNum 7); ("title", VStr "Rest")].

Definition numeric_category_article : value :=
  VObj [("id", VNum 8); ("category", VNum 5)].

Definition complete_sample_article : value :=
  VObj [("id", VNum 1); ("title", VStr "Rest"); ("excerpt", VStr "Sleep well");
        ("image", VStr "rest.png"); ("tag", VStr "sleep");
        ("category", VStr "sleep")].

(** ** Induction on values through the elements of arrays *)

Section value_elements_ind.
Variable P : value -> Prop.
Hypothesis other : forall v, is_array v = false -> P v.
Hypothesis array : forall elements, Forall P elements -> P (VArr elements).

Fixpoint value_elements_ind (v : value) : P v :=
  match v with
  | VArr elements =>
      array elements
        ((fix each (l : list value) : Forall P l :=
            match l with
            | [] => List.Forall_nil P
            | e :: rest =>
                List.Forall_cons P e rest (value_elements_ind e) (each rest)
            end) elements)
  | VUndefined => other VUndefined eq_refl
  | VNull => other VNull eq_refl
  | VBool b => other (VBool b) eq_refl
  | VNum n => other (VNum n) eq_refl
  | VStr s => other (VStr s) eq_refl
  | VObj properties => other (VObj properties) eq_refl
  end.
End value_elements_ind.

(** ** Checks of the embedding on concrete inputs *)

Example lit_error_div :
  lit "<div class=`error`>" =
  "<div class=" +:+ String dquote "error" +:+ String dquote ">".
Proof. reflexivity. Qed.

Example to_string_array :
  to_string (VArr [VStr "a"; VNull; VNum (-3)]) = Ok "a,,-3".
Proof. reflexivity. Qed.

(** An object with a property named toString cannot be converted, nor can
    an array that holds one; an object without it can. *)
Example to_string_own_toString :
  to_string (VObj [("toString", VNum 1)]) = Raise TypeError /\
  to_string (VArr [VStr "a"; VObj [("toString", VNull)]]) = Raise TypeError /\
  to_string (VObj [("title", VStr "Rest")]) = Ok "[object Object]".
Proof. repeat split. Qed.

Example ascii_toLowerCase_Sleep : ascii_toLowerCase "Sleep" = "sleep".
Proof. reflexivity. Qed.

(** An article without properties is rendered as one whose properties all
    are the text undefined. *)
Example articleCard_without_properties :
  Plain.articleCard (VObj []) =
  Plain.articleCard
    (obj [("category", "undefined"); ("image", "undefined");
          ("tag", "undefined"); ("title", "undefined");
          ("excerpt", "undefined"); ("id", "undefined")]).
Proof. reflexivity. Qed.

(** The defensive copy puts its fall-back texts there instead. *)
Example articleCard_fallbacks :
  Defensive.articleCard (VObj []) =
  Defensive.articleCard
    (obj [("category", "все");
          ("image", "https://via.placeholder.com/300x200");
          ("tag", "статья"); ("title", "undefined");
          ("id", "undefined")]).
Proof. reflexivity. Qed.

(** After an empty array has been loaded the defensive filter returns at
    once; the container still has the placeholder from the load. *)
Example defensive_filter_after_empty_load :
  let p :=
    Defensive.handle ascii_toLowerCase
      (FetchedArticles (Responded true (Json (document [] [])))) blank in
  exec (Defensive.filterArticles ascii_toLowerCase "all") p = p /\
  articles_container p = Defensive.no_articles.
Proof. split; reflexivity. Qed.

(** ** Running scripts *)

Ltac script_unfold :=
  unfold exec, throws, bind, try_catch, lift, read,
    set_articlesData, set_videosData, set_articles_container,
    set_videos_container, set_videoIframe_src, set_videoModal_active,
    alert, console_error, modify, ret, throw in *.

Ltac script_simpl := script_unfold; simpl in *.

Lemma array_map_total {B} (f : value -> exn B) (items : list value) :
  Forall (fun a => exists b, f a = Ok b) items ->
  exists results,
    array_map f items = Ok results /\
    Forall2 (fun a b => f a = Ok b) items results.
Proof.
  induction 1 as [|a rest [b Hb] _ [results [Hmap Hall]]].
  - exists []. split; [reflexivity | constructor].
  - exists (b :: results). simpl. rewrite Hb. simpl. rewrite Hmap. simpl.
    split; [reflexivity | by constructor].
Qed.

Lemma array_filter_total (f : value -> exn bool) (g : value -> bool)
  (items : list value) :
  Forall (fun a => f a = Ok (g a)) items ->
  array_filter f items = Ok (List.filter g items).
Proof.
  induction 1 as [|a rest Ha _ IH]; [reflexivity|].
  simpl. rewrite Ha. simpl. rewrite IH. simpl. by destruct (g a).
Qed.




Lemma forallb_Forall (ok : value -> bool) (items : list value) :
  forallb ok items = true -> Forall (fun a => ok a = true) items.
Proof.
  induction items as [|a rest IH]; simpl; [constructor|].
  intros [Ha Hrest]%andb_true_iff. constructor; auto.
Qed.

Lemma get_defined (a : value) (key : string) :
  defined a = true -> get a key = Ok (field key a).
Proof. unfold field. by destruct a. Qed.

Lemma number_value_length (n : nat) :
  Z.eqb (number_value (number_of (Z.of_nat n))) 0 =
  match n with 0 => true | S _ => false end.
Proof.
  destruct n; [reflexivity|]. apply Z.eqb_neq.
  cbn [number_value number_of]. unfold clamp, limit. lia.
Qed.

Lemma is_number_length (items : list value) :
  is_number (VNum (Z.of_nat (length items))) 0 =
  match items with [] => true | _ :: _ => false end.
Proof.
  unfold is_number. rewrite number_value_length. by destruct items.
Qed.

Lemma append_cons (c : ascii) (s t : string) :
  String c s +:+ t = String c (s +:+ t).
Proof. reflexivity. Qed.

Lemma append_assoc (s t u : string) : (s +:+ t) +:+ u = s +:+ t +:+ u.
Proof.
  induction s as [|c s IH]; [done|]. rewrite !append_cons. by f_equal.
Qed.

(** *** Conversion to text *)

Lemma each_to_string_printable elements :
  Forall (fun v =>
            to_string v = Raise TypeError /\ printable v = false \/
            (exists s, to_string v = Ok s) /\ printable v = true) elements ->
  each_to_string elements = Raise TypeError /\
    forallb printable elements = false \/
  (exists ss, each_to_string elements = Ok ss) /\
    forallb printable elements = true.
Proof.
  induction 1 as [|e rest He _ IH]; [simpl; eauto|].
  cbn [forallb each_to_string].
  assert (match e with
          | VUndefined | VNull => Ok EmptyString
          | _ => to_string e
          end = Raise TypeError /\ printable e = false \/
          (exists s, match e with
                     | VUndefined | VNull => Ok EmptyString
                     | _ => to_string e
                     end = Ok s) /\ printable e = true) as He'.
  { destruct e; eauto. }
  destruct He' as [[Hs Hp]|[[s Hs] Hp]]; rewrite Hp, Hs; cbn [exn_bind andb].
  - by left.
  - destruct IH as [[Hr Hq]|[[ss Hr] Hq]]; rewrite Hq, Hr;
      cbn [exn_bind]; eauto.
Qed.

(** A value is converted to text exactly when it is [printable]; when it
    is not, the conversion throws a TypeError. *)
Lemma to_string_printable (v : value) :
  to_string v = Raise TypeError /\ printable v = false \/
  (exists s, to_string v = Ok s) /\ printable v = true.
Proof.
  revert v. apply value_elements_ind.
  - intros [| |[|]|n|s|elements|properties] Hv; try discriminate;
      simpl; eauto.
    destruct (owns "toString" properties); simpl; eauto.
  - intros elements Hall. simpl.
    change (fix each (l : list value) : exn (list string) := _)
      with each_to_string.
    destruct (each_to_string_printable elements Hall)
      as [[-> ->]|[[ss ->] ->]]; simpl; eauto.
Qed.

Lemma to_string_ok (v : value) :
  printable v = true -> exists s, to_string v = Ok s.
Proof.
  intros Hv. destruct (to_string_printable v) as [[_ H]|[H _]];
    [congruence | done].
Qed.

Lemma to_string_raises (v : value) :
  printable v = false -> to_string v = Raise TypeError.
Proof.
  intros Hv. destruct (to_string_printable v) as [[H _]|[_ H]];
    [done | congruence].
Qed.

Lemma printable_or_else (v fallback : value) :
  printable fallback = true ->
  printable (or_else v fallback) = printable v.
Proof.
  intros Hf. unfold or_else. destruct (truthy v) eqn:Hv; [done|].
  rewrite Hf. by destruct v.
Qed.

(** *** The cards *)

Lemma article_opening_split :
  lit "
        <div class=`article-card` data-category=`" =
  lit "
        " +:+ card_opening Articles +:+ lit " data-category=`".
Proof. reflexivity. Qed.

Lemma article_heading_split :
  lit "</span>
                <h3 class=`article-title`>" =
  lit "</span>
                " +:+ lit "<h3 class=`article-title`>".
Proof. reflexivity. Qed.

Lemma article_heading_end_split :
  lit "</h3>
                <p class=`article-excerpt`>" =
  "</h3>" +:+ lit "
                <p class=`article-excerpt`>".
Proof. reflexivity. Qed.

Lemma video_opening_split :
  lit "
        <div class=`video-card` data-category=`" =
  lit "
        " +:+ card_opening Videos +:+ lit " data-category=`".
Proof. reflexivity. Qed.

Lemma video_heading_split :
  lit "')`>
                <div class=`play-button`>▶</div>
            </div>
            <div class=`video-info`>
                <h3 class=`video-title`>" =
  lit "')`>
                <div class=`play-button`>▶</div>
            </div>
            <div class=`video-info`>
                " +:+ lit "<h3 class=`video-title`>".
Proof. reflexivity. Qed.

Lemma video_heading_end_split :
  lit "</h3>
                <div class=`video-channel`>" =
  "</h3>" +:+ lit "
                <div class=`video-channel`>".
Proof. reflexivity. Qed.

(** Finds the card element and the heading in the text of a card. *)
Ltac find_card :=
  rewrite ?article_opening_split, ?article_heading_split,
    ?article_heading_end_split, ?video_opening_split, ?video_heading_split,
    ?video_heading_end_split;
  rewrite !append_assoc;
  lazymatch goal with
  | |- card_of _ _
         (?a +:+ _ +:+ ?x1 +:+ ?x2 +:+ ?x3 +:+ ?x4 +:+ ?x5 +:+ ?x6 +:+ ?x7 +:+
          _ +:+ ?title +:+ _ +:+ ?after) =>
      exists title, a, (x1 +:+ x2 +:+ x3 +:+ x4 +:+ x5 +:+ x6 +:+ x7), after
  end;
  split; [done|];
  unfold card_heading, card_opening; by rewrite !append_assoc.

Ltac fields_of H :=
  unfold article_item, video_item, video_item_optional_tags,
    fields_printable, article_fields, video_fields in H;
  cbn [forallb] in H;
  repeat match type of H with
         | _ && _ = true => apply andb_true_iff in H; destruct H as [? H]
         | true = true => clear H
         end;
  repeat match goal with
         | H' : _ && _ = true |- _ =>
             apply andb_true_iff in H'; destruct H' as [? ?]
         end.

Lemma Plain_articleCard_card (a : value) :
  article_item a = true ->
  exists text, Plain.articleCard a = Ok text /\ card_of Articles a text.
Proof.
  intros Ha. fields_of Ha.
  repeat match goal with
         | H : printable (field _ a) = true |- _ =>
             apply to_string_ok in H; destruct H as [? H]
         end.
  unfold Plain.articleCard. rewrite !(get_defined a) by done.
  cbn [exn_bind].
  repeat match goal with
         | H : to_string _ = Ok _ |- _ => rewrite H; cbn [exn_bind]
         end.
  eexists. split; [reflexivity|]. find_card.
Qed.

(** Converts, one after the other, the properties a card displays. *)
Ltac convert_fields :=
  repeat match goal with
         | |- context [to_string ?v] =>
             let H := fresh "Htext" in
             destruct (to_string_ok v) as [? H];
             [ rewrite ?printable_or_else by reflexivity; assumption
             | rewrite H; clear H; cbn [exn_bind] ]
         end.

Lemma Defensive_articleCard_card (a : value) :
  article_item a = true ->
  exists text, Defensive.articleCard a = Ok text /\ card_of Articles a text.
Proof.
  intros Ha. fields_of Ha.
  assert (exists title, to_string (field "title" a) = Ok title)
    as [title Htitle] by (by apply to_string_ok).
  unfold Defensive.articleCard. rewrite !(get_defined a) by done.
  cbn [exn_bind]. rewrite Htitle. convert_fields.
  eexists. split; [reflexivity|]. find_card.
Qed.

Lemma videoTag_total (tags : list value) :
  forallb printable tags = true ->
  exists spans, array_map Plain.videoTag tags = Ok spans.
Proof.
  intros Htags.
  destruct (array_map_total Plain.videoTag tags) as [spans [H _]]; [|eauto].
  eapply Forall_impl; [by apply forallb_Forall|].
  intros tag Htag. unfold Plain.videoTag.
  destruct (to_string_ok tag Htag) as [s ->]. simpl. eauto.
Qed.

Lemma tags_printable_array (v : value) :
  tags_printable v = true ->
  exists tags, v = VArr tags /\ forallb printable tags = true.
Proof. destruct v; try discriminate. eauto. Qed.

Lemma video_item_defined (v : value) : video_item v = true -> defined v = true.
Proof.
  intros [_ Hv]%andb_true_iff. apply tags_printable_array in Hv as [tags [Hv _]].
  by destruct v.
Qed.

Lemma Plain_videoCard_card (v : value) :
  video_item v = true ->
  exists text, Plain.videoCard v = Ok text /\ card_of Videos v text.
Proof.
  intros Hv. pose proof (video_item_defined v Hv) as Hd. fields_of Hv.
  assert (exists title, to_string (field "title" v) = Ok title)
    as [title Htitle] by (by apply to_string_ok).
  match goal with
  | H : tags_printable _ = true |- _ =>
      apply tags_printable_array in H as [tags [Htags Hall]]
  end.
  destruct (videoTag_total tags Hall) as [spans Hspans].
  unfold Plain.videoCard. rewrite !(get_defined v) by done.
  cbn [exn_bind]. rewrite Htitle, Htags. cbn [as_array exn_bind]. rewrite Hspans.
  convert_fields. eexists. split; [reflexivity|]. find_card.
Qed.

Lemma Defensive_videoCard_card (v : value) :
  video_item_optional_tags v = true ->
  exists text, Defensive.videoCard v = Ok text /\ card_of Videos v text.
Proof.
  intros Hv.
  assert (exists tags, or_else (field "tags" v) (VArr []) = VArr tags /\
                       forallb printable tags = true) as [tags [Htags Hall]].
  { unfold video_item_optional_tags in Hv.
    apply andb_true_iff in Hv as [_ [H|H]%orb_true_iff].
    - unfold or_else. apply negb_true_iff in H. rewrite H. by exists [].
    - apply tags_printable_array in H as [tags [H Hall]]. rewrite H.
      by exists tags. }
  fields_of Hv.
  assert (exists title, to_string (field "title" v) = Ok title)
    as [title Htitle] by (by apply to_string_ok).
  destruct (videoTag_total tags Hall) as [spans Hspans].
  unfold Defensive.videoCard. rewrite !(get_defined v) by done.
  cbn [exn_bind]. rewrite Htitle, Htags. cbn [as_array exn_bind].
  change Defensive.videoTag with Plain.videoTag. rewrite Hspans.
  convert_fields. eexists. split; [reflexivity|]. find_card.
Qed.

Lemma video_item_optional (v : value) :
  video_item v = true -> video_item_optional_tags v = true.
Proof.
  intros Hv. pose proof (video_item_defined v Hv) as Hd.
  apply andb_true_iff in Hv as [Hf Ht].
  unfold video_item_optional_tags. rewrite Hd, Hf, Ht. simpl.
  by rewrite orb_true_r.
Qed.

(** A card whose item is not as required throws. *)
Ltac convert_or_raise H :=
  repeat match goal with
         | |- context [to_string ?v] =>
             let Hr := fresh "Hr" in
             let Hp := fresh "Hp" in
             destruct (to_string_printable v) as [[Hr _]|[[? Hr] Hp]];
             rewrite Hr; clear Hr; cbn [exn_bind];
             [ reflexivity
             | rewrite ?printable_or_else in Hp by reflexivity;
               rewrite Hp in H; clear Hp; cbn [andb] in H ]
         end.

Lemma Plain_articleCard_raises (a : value) :
  article_item a = false -> Plain.articleCard a = Raise TypeError.
Proof.
  intros H. destruct (defined a) eqn:Ha; [|by destruct a].
  unfold article_item, fields_printable, article_fields in H.
  rewrite Ha in H. cbn [forallb andb] in H.
  unfold Plain.articleCard. rewrite !(get_defined a) by done.
  cbn [exn_bind]. convert_or_raise H. discriminate.
Qed.

Lemma Defensive_articleCard_raises (a : value) :
  article_item a = false -> Defensive.articleCard a = Raise TypeError.
Proof.
  intros H. destruct (defined a) eqn:Ha; [|by destruct a].
  unfold article_item, fields_printable, article_fields in H.
  rewrite Ha in H. cbn [forallb andb] in H.
  unfold Defensive.articleCard. rewrite !(get_defined a) by done.
  cbn [exn_bind]. convert_or_raise H. discriminate.
Qed.

Lemma Plain_articleCard_cases a :
  Plain.articleCard a = Raise TypeError \/
  exists text, Plain.articleCard a = Ok text.
Proof.
  destruct (article_item a) eqn:Ha.
  - right. destruct (Plain_articleCard_card a Ha) as [text [H _]]. eauto.
  - left. by apply Plain_articleCard_raises.
Qed.

Lemma Defensive_articleCard_cases a :
  Defensive.articleCard a = Raise TypeError \/
  exists text, Defensive.articleCard a = Ok text.
Proof.
  destruct (article_item a) eqn:Ha.
  - right. destruct (Defensive_articleCard_card a Ha) as [text [H _]]. eauto.
  - left. by apply Defensive_articleCard_raises.
Qed.

Ltac plain_unfold :=
  unfold Plain.handle, Plain.loadArticles, Plain.loadVideos,
    Plain.filterArticles, Plain.filterVideos, Plain.renderArticles,
    Plain.renderVideos, Plain.openVideo, Plain.closeModal in *.

Ltac defensive_unfold :=
  unfold Defensive.handle, Defensive.loadArticles, Defensive.loadVideos,
    Defensive.filterArticles, Defensive.filterVideos,
    Defensive.renderArticles, Defensive.renderVideos, Defensive.openVideo,
    Defensive.closeModal in *.

(** Splits on every test and every call that may throw. *)
Ltac run_all := script_simpl; repeat (case_match; simpl in *; simplify_eq); try done.

(** *** The renderers on arrays *)

Lemma array_map_shows (k : content) (card : value -> exn string)
  (ok : value -> bool) (items : list value) :
  (forall a, ok a = true ->
             exists text, card a = Ok text /\ card_of k a text) ->
  Forall (fun a => ok a = true) items ->
  exists cards,
    array_map card items = Ok cards /\ cards_of k card items (join cards).
Proof.
  intros Hcard Hall.
  assert (exists cards,
            array_map card items = Ok cards /\
            Forall2 (fun item text => card item = Ok text /\
                                      card_of k item text) items cards)
    as [cards [Hmap Hcards]].
  { induction Hall as [|a rest Ha _ [cards [Hmap Hcards]]].
    - exists []. split; [reflexivity | constructor].
    - destruct (Hcard a Ha) as [text [Htext Hof]].
      exists (text :: cards). simpl. rewrite Htext. simpl. rewrite Hmap.
      split; [reflexivity | by constructor]. }
  exists cards. split; [done | by exists cards].
Qed.

Ltac render_array total :=
  let cards := fresh "cards" in
  let Hmap := fresh "Hmap" in
  let Hcards := fresh "Hcards" in
  intros Hall;
  match goal with
  | |- context [VArr ?items] =>
      destruct (array_map_shows _ _ _ items total Hall)
        as [cards [Hmap Hcards]];
      script_unfold; cbn [get as_array String.eqb Ascii.eqb Bool.eqb];
      rewrite ?is_number_length;
      destruct items;
      [ eexists; split; reflexivity
      | rewrite Hmap; exists (join cards); split; [reflexivity | exact Hcards] ]
  end.

Lemma Plain_renderArticles_array items p :
  Forall (fun a => article_item a = true) items ->
  exists html,
    Plain.renderArticles (VArr items) p =
      (Normal tt, with_articles_container html p) /\
    shows Articles Plain.articleCard Plain.no_articles items html.
Proof. unfold Plain.renderArticles. render_array Plain_articleCard_card. Qed.

Lemma Plain_renderVideos_array items p :
  Forall (fun a => video_item a = true) items ->
  exists html,
    Plain.renderVideos (VArr items) p =
      (Normal tt, with_videos_container html p) /\
    shows Videos Plain.videoCard Plain.no_videos items html.
Proof. unfold Plain.renderVideos. render_array Plain_videoCard_card. Qed.

Lemma missing_or_empty_array items :
  Defensive.missing_or_empty (VArr items) =
  Ok match items with [] => true | _ :: _ => false end.
Proof.
  unfold Defensive.missing_or_empty. cbn [truthy negb get exn_bind].
  cbn [String.eqb Ascii.eqb Bool.eqb]. by rewrite is_number_length.
Qed.

Lemma Defensive_renderArticles_array items p :
  Forall (fun a => article_item a = true) items ->
  exists html,
    Defensive.renderArticles (VArr items) p =
      (Normal tt, with_articles_container html p) /\
    shows Articles Defensive.articleCard Defensive.no_articles items html.
Proof.
  unfold Defensive.renderArticles. rewrite missing_or_empty_array.
  render_array Defensive_articleCard_card.
Qed.

Lemma Defensive_renderVideos_array items p :
  Forall (fun a => video_item_optional_tags a = true) items ->
  exists html,
    Defensive.renderVideos (VArr items) p =
      (Normal tt, with_videos_container html p) /\
    shows Videos Defensive.videoCard Defensive.no_videos items html.
Proof.
  unfold Defensive.renderVideos. rewrite missing_or_empty_array.
  render_array Defensive_videoCard_card.
Qed.
Lemma Plain_handle_data k e p :
  is_fetched_event k e = false ->
  data_of k (Plain.handle e p) = data_of k p.
Proof. destruct k, e; try discriminate; intros _; plain_unfold; run_all. Qed.

Lemma Defensive_handle_data lc k e p :
  is_fetched_event k e = false ->
  data_of k (Defensive.handle lc e p) = data_of k p.
Proof. destruct k, e; try discriminate; intros _; defensive_unfold; run_all. Qed.

Lemma Defensive_handle_empty lc k e p :
  is_fetched_event k e = false ->
  data_of k p = VArr [] ->
  container_of k (Defensive.handle lc e p) = container_of k p.
Proof.
  destruct k, e; try discriminate; intros _ Hd; simpl in Hd;
    defensive_unfold; script_simpl; rewrite ?Hd; run_all.
Qed.
Lemma Plain_category_matches c a :
  defined a = true -> Plain.category_matches c a = Ok (has_category c a).
Proof.
  intros Ha. unfold Plain.category_matches, has_category.
  by rewrite get_defined.
Qed.

Lemma Defensive_category_matches lc c a :
  category_optional a = true ->
  Defensive.category_matches lc c a = Ok (matches_lowered lc c a).
Proof.
  unfold category_optional, Defensive.category_matches, matches_lowered,
    category_text, or_else.
  intros [Ha Hc]%andb_true_iff. rewrite get_defined by done. simpl.
  destruct (field "category" a) as [| |b|n|s| |]; simpl in *;
    try discriminate; try done.
  - by destruct b.
  - by destruct (Z.eqb (number_value n) 0).
  - destruct (String.eqb s EmptyString) eqn:E; simpl; [|done].
    apply String.eqb_eq in E. by subst.
Qed.

Lemma Plain_filter_array c items :
  Forall (fun a => defined a = true) items ->
  array_filter (Plain.category_matches c) items =
  Ok (List.filter (has_category c) items).
Proof.
  intros Hall. apply array_filter_total.
  eapply Forall_impl; [exact Hall | apply Plain_category_matches].
Qed.

Lemma Defensive_filter_array lc c items :
  Forall (fun a => category_optional a = true) items ->
  array_filter (Defensive.category_matches lc c) items =
  Ok (List.filter (matches_lowered lc c) items).
Proof.
  intros Hall. apply array_filter_total.
  eapply Forall_impl; [exact Hall | apply Defensive_category_matches].
Qed.



Lemma Plain_filterArticles_category c items p :
  articlesData p = VArr items ->
  Forall (fun a => defined a = true) items ->
  Forall (fun a => article_item a = true)
    (List.filter (has_category c) items) ->
  c <> "all" ->
  exists html,
    Plain.filterArticles c p = (Normal tt, with_articles_container html p) /\
    shows Articles Plain.articleCard Plain.no_articles
      (List.filter (has_category c) items) html.
Proof.
  intros Hdata Hall Hsel Hc.
  destruct (Plain_renderArticles_array (List.filter (has_category c) items) p)
    as [html [Hrender Hshows]]; [done|].
  exists html. split; [|done].
  unfold Plain.filterArticles. script_unfold. rewrite Hdata.
  apply String.eqb_neq in Hc. rewrite Hc. cbn [as_array].
  rewrite Plain_filter_array by done. exact Hrender.
Qed.


Lemma Defensive_filterArticles_category lc c a items p :
  articlesData p = VArr (a :: items) ->
  Forall (fun a => category_optional a = true) (a :: items) ->
  Forall (fun a => article_item a = true)
    (List.filter (matches_lowered lc c) (a :: items)) ->
  c <> "all" ->
  exists html,
    Defensive.filterArticles lc c p =
      (Normal tt, with_articles_container html p) /\
    shows Articles Defensive.articleCard Defensive.no_articles
      (List.filter (matches_lowered lc c) (a :: items)) html.
Proof.
  intros Hdata Hall Hsel Hc.
  destruct (Defensive_renderArticles_array
              (List.filter (matches_lowered lc c) (a :: items)) p)
    as [html [Hrender Hshows]]; [done|].
  exists html. split; [|done].
  unfold Defensive.filterArticles. script_unfold. rewrite Hdata.
  rewrite missing_or_empty_array.
  apply String.eqb_neq in Hc. rewrite Hc. cbn [as_array].
  rewrite Defensive_filter_array by done. exact Hrender.
Qed.


Lemma Defensive_filter_empty lc c p :
  (articlesData p = VArr [] ->
   Defensive.filterArticles lc c p = (Normal tt, p)) /\
  (videosData p = VArr [] ->
   Defensive.filterVideos lc c p = (Normal tt, p)).
Proof.
  split; intros Hdata;
    unfold Defensive.filterArticles, Defensive.filterVideos;
    script_unfold; by rewrite Hdata.
Qed.

(** *** Pages on which an array has been loaded *)

Lemma run_invariant (handle : event -> page -> page) (k : content)
  (Inv : page -> Prop) :
  (forall e p, is_fetched_event k e = false -> Inv p -> Inv (handle e p)) ->
  forall events p,
    Forall (fun e => is_fetched_event k e = false) events ->
    Inv p -> Inv (run handle events p).
Proof.
  intros Hstep events. induction events as [|e rest IH]; intros p Hall Hp.
  - exact Hp.
  - inversion Hall; subst. simpl. apply IH; [done|]. by apply Hstep.
Qed.

Lemma Plain_fetched_data k data items p :
  get data (key_of k) = Ok (VArr items) ->
  data_of k (Plain.handle (fetched_event k (Responded true (Json data))) p) =
  VArr items.
Proof. destruct k; simpl; intros Hget; plain_unfold; script_simpl; rewrite Hget; run_all. Qed.

Lemma Plain_loaded_data k items p :
  loaded Plain.handle k items p -> data_of k p = VArr items.
Proof.
  intros (p0 & data & events & Hget & Hall & ->).
  apply (run_invariant Plain.handle k (fun p => data_of k p = VArr items));
    [|done|by apply Plain_fetched_data].
  intros e p Hk Hp. by rewrite Plain_handle_data.
Qed.

Lemma Defensive_fetched_data lc k data items p :
  get data (key_of k) = Ok (VArr items) ->
  let p' :=
    Defensive.handle lc (fetched_event k (Responded true (Json data))) p in
  data_of k p' = VArr items /\
  (items = [] -> container_of k p' = placeholder_of k).
Proof.
  destruct k; simpl; intros Hget; defensive_unfold; script_simpl;
    rewrite Hget; destruct items; run_all.
Qed.

Lemma Defensive_loaded_data lc k items p :
  loaded (Defensive.handle lc) k items p ->
  data_of k p = VArr items /\
  (items = [] -> container_of k p = placeholder_of k).
Proof.
  intros (p0 & data & events & Hget & Hall & ->).
  apply (run_invariant (Defensive.handle lc) k
           (fun p => data_of k p = VArr items /\
                     (items = [] -> container_of k p = placeholder_of k)));
    [|done|by apply Defensive_fetched_data].
  intros e p Hk [Hp Hempty]. split.
  - by rewrite Defensive_handle_data.
  - intros ->. rewrite Defensive_handle_empty; auto.
Qed.

(** ** The modal *)

(** C8. Whatever the page is, open with any player source or already
    closed, [closeModal] completes, leaves the player source empty and the
    modal not active; this holds for both copies of the script. *)
Theorem closeModal_clears_and_closes :
  forall p : page,
    (throws Plain.closeModal p = false /\
     videoIframe_src (exec Plain.closeModal p) = EmptyString /\
     videoModal_active (exec Plain.closeModal p) = false) /\
    (throws Defensive.closeModal p = false /\
     videoIframe_src (exec Defensive.closeModal p) = EmptyString /\
     videoModal_active (exec Defensive.closeModal p) = false).
Proof. intros p. repeat split. Qed.

(** C9. [openVideo('abc123')] sets the player source to
    https://www.youtube.com/embed/abc123?autoplay=1 and marks the modal
    active, in both copies; for every identifier (every non-empty one in
    the defensive copy) the source is the identifier itself between the
    fixed prefix and suffix, nothing escaped. *)
Theorem openVideo_sets_embed_url :
  (forall p : page,
     videoIframe_src (exec (Plain.openVideo (VStr "abc123")) p) =
       "https://www.youtube.com/embed/abc123?autoplay=1" /\
     videoModal_active (exec (Plain.openVideo (VStr "abc123")) p) = true /\
     videoIframe_src (exec (Defensive.openVideo (VStr "abc123")) p) =
       "https://www.youtube.com/embed/abc123?autoplay=1" /\
     videoModal_active (exec (Defensive.openVideo (VStr "abc123")) p) = true)
  /\
  (forall (id : string) (p : page),
     videoIframe_src (exec (Plain.openVideo (VStr id)) p) =
       "https://www.youtube.com/embed/" +:+ id +:+ "?autoplay=1" /\
     videoModal_active (exec (Plain.openVideo (VStr id)) p) = true)
  /\
  (forall (c : ascii) (id : string) (p : page),
     videoIframe_src (exec (Defensive.openVideo (VStr (String c id))) p) =
       "https://www.youtube.com/embed/" +:+ String c id +:+ "?autoplay=1" /\
     videoModal_active (exec (Defensive.openVideo (VStr (String c id))) p) =
       true).
Proof. repeat split. Qed.

(** C3, counterexample.  In [src/web/script.js], [openVideo('')] on the
    page as first set up, where the modal is closed, opens the modal,
    changes the player source and raises no notice. *)
Lemma openVideo_empty_counterexample :
  videoModal_active blank = false /\
  videoModal_active (exec (Plain.openVideo (VStr EmptyString)) blank) = true /\
  videoIframe_src (exec (Plain.openVideo (VStr EmptyString)) blank) <>
    videoIframe_src blank /\
  alerts (exec (Plain.openVideo (VStr EmptyString)) blank) = [].
Proof. repeat split. discriminate. Qed.

(** C3, amended.  In the defensive copy [openVideo('')] raises the notice
    and changes nothing else on the page, so the modal stays as it was and
    the player source is unchanged.  The other copy has no such guard: it
    raises no notice, sets the source to the embed address of the empty
    identifier and marks the modal active. *)
Theorem openVideo_empty_identifier :
  forall p : page,
    (throws (Defensive.openVideo (VStr EmptyString)) p = false /\
     exec (Defensive.openVideo (VStr EmptyString)) p =
       with_alert Defensive.video_unavailable p /\
     alerts (exec (Defensive.openVideo (VStr EmptyString)) p) =
       alerts p ++ [Defensive.video_unavailable] /\
     videoModal_active (exec (Defensive.openVideo (VStr EmptyString)) p) =
       videoModal_active p /\
     videoIframe_src (exec (Defensive.openVideo (VStr EmptyString)) p) =
       videoIframe_src p) /\
    (alerts (exec (Plain.openVideo (VStr EmptyString)) p) = alerts p /\
     videoIframe_src (exec (Plain.openVideo (VStr EmptyString)) p) =
       "https://www.youtube.com/embed/?autoplay=1" /\
     videoModal_active (exec (Plain.openVideo (VStr EmptyString)) p) = true).
Proof. intros p. repeat split. Qed.

(** ** The loaders *)

Lemma has_key_lookup key properties :
  has_key key properties = false ->
  lookup_property key properties = VUndefined.
Proof.
  induction properties as [|[k v] rest IH]; simpl; [done|].
  destruct (String.eqb k key); simpl; [discriminate | exact IH].
Qed.








(** ** The renderers *)

Lemma shows_nonempty k card placeholder items html :
  items <> [] -> shows k card placeholder items html ->
  cards_of k card items html.
Proof. by destruct items. Qed.

Lemma Forall_video_item_optional videos :
  Forall (fun v => video_item v = true) videos ->
  Forall (fun v => video_item_optional_tags v = true) videos.
Proof. intros H. eapply Forall_impl; [exact H | apply video_item_optional]. Qed.

(** C5, counterexample.  In [src/web/script.js], [renderVideos] on a video
    without [tags] throws (a TypeError from calling [map] on [undefined])
    and the container keeps what it had.  Nothing else is wrong with the
    video: the properties it has are texts. *)
Lemma render_missing_tags_counterexample :
  defined untagged_video = true /\
  fields_printable video_fields untagged_video = true /\
  field "tags" untagged_video = VUndefined /\
  Plain.renderVideos (VArr [untagged_video]) blank = (Thrown TypeError, blank).
Proof. repeat split. Qed.

(** C5, amended.  In [src/web/script.js], [renderArticles] completes
    without throwing on every sequence of items that are not [null] or
    [undefined] and whose displayed properties, those they have, can be
    converted to text, whichever of the properties are missing: it shows
    one card per item (the placeholder for none), the text undefined
    standing for a missing property.  [renderVideos] does so on every
    sequence of such items that each carry an array of tags that can be
    converted to text, whichever other properties are missing. *)
Theorem plain_render_completes :
  forall (items : list value) (p : page),
    (Forall (fun a => article_item a = true) items ->
     throws (Plain.renderArticles (VArr items)) p = false /\
     shows Articles Plain.articleCard (placeholder_of Articles) items
       (articles_container (exec (Plain.renderArticles (VArr items)) p))) /\
    (Forall (fun v => video_item v = true) items ->
     throws (Plain.renderVideos (VArr items)) p = false /\
     shows Videos Plain.videoCard (placeholder_of Videos) items
       (videos_container (exec (Plain.renderVideos (VArr items)) p))).
Proof.
  intros items p. split; intros Hall.
  - destruct (Plain_renderArticles_array items p Hall) as [html [Hrun Hshows]].
    unfold throws, exec. by rewrite Hrun.
  - destruct (Plain_renderVideos_array items p Hall) as [html [Hrun Hshows]].
    unfold throws, exec. by rewrite Hrun.
Qed.

Lemma plain_render_completes_witness :
  Forall (fun a => article_item a = true) [VObj []; mood_article] /\
  throws (Plain.renderArticles (VArr [VObj []; mood_article])) blank = false /\
  Forall (fun v => video_item v = true) [tagged_video] /\
  throws (Plain.renderVideos (VArr [tagged_video])) blank = false.
Proof.
  destruct (plain_render_completes [VObj []; mood_article] blank)
    as [Harticles _].
  destruct (plain_render_completes [tagged_video] blank) as [_ Hvideos].
  assert (Forall (fun a => article_item a = true) [VObj []; mood_article])
    as Ha by (repeat constructor).
  assert (Forall (fun v => video_item v = true) [tagged_video]) as Hv
    by (repeat constructor).
  split; [exact Ha|]. split; [exact (proj1 (Harticles Ha))|].
  split; [exact Hv|]. exact (proj1 (Hvideos Hv)).
Defined.

(** C6, counterexample.  The sequence of the one article whose title is an
    object with a property named toString is not empty, yet neither copy
    renders a card for it: the conversion of the title to text throws a
    TypeError and the container keeps what it had.  The same happens, in
    both copies, for the sequence whose one item is [null]. *)
Lemma render_unconvertible_counterexample :
  [untitled_article] <> [] /\
  Plain.renderArticles (VArr [untitled_article]) blank =
    (Thrown TypeError, blank) /\
  Defensive.renderArticles (VArr [untitled_article]) blank =
    (Thrown TypeError, blank) /\
  Plain.renderArticles (VArr [VNull]) blank = (Thrown TypeError, blank) /\
  Defensive.renderArticles (VArr [VNull]) blank = (Thrown TypeError, blank).
Proof. repeat split. discriminate. Qed.

(** C6, amended.  The items of a sequence are values other than [null] and
    [undefined] whose displayed properties, those they have, can be
    converted to text (any value but an object with a property named
    toString, or an array holding one); a video moreover carries an array
    of tags that can be converted to text.  For a non-empty sequence of
    such items the renderer fills its container with one card per item, in
    the order of the items: the markup is the concatenation of one text
    per item, in which a card element opens and the heading carries the
    title of that item.  For the empty sequence it fills the container
    with the placeholder message.  This holds for both renderers of both
    copies. *)
Theorem render_one_card_per_item :
  forall (articles videos : list value) (p : page),
    Forall (fun a => article_item a = true) articles ->
    Forall (fun v => video_item v = true) videos ->
    (articles <> [] ->
     cards_of Articles Plain.articleCard articles
       (articles_container (exec (Plain.renderArticles (VArr articles)) p)) /\
     cards_of Articles Defensive.articleCard articles
       (articles_container
          (exec (Defensive.renderArticles (VArr articles)) p))) /\
    (videos <> [] ->
     cards_of Videos Plain.videoCard videos
       (videos_container (exec (Plain.renderVideos (VArr videos)) p)) /\
     cards_of Videos Defensive.videoCard videos
       (videos_container (exec (Defensive.renderVideos (VArr videos)) p))) /\
    (articles_container (exec (Plain.renderArticles (VArr [])) p) =
       lit "<div class=`loading`>Нет статей</div>" /\
     articles_container (exec (Defensive.renderArticles (VArr [])) p) =
       lit "<div class=`loading`>Нет статей</div>" /\
     videos_container (exec (Plain.renderVideos (VArr [])) p) =
       lit "<div class=`loading`>Нет видео</div>" /\
     videos_container (exec (Defensive.renderVideos (VArr [])) p) =
       lit "<div class=`loading`>Нет видео</div>") /\
    (throws (Plain.renderArticles (VArr articles)) p = false /\
     throws (Defensive.renderArticles (VArr articles)) p = false /\
     throws (Plain.renderVideos (VArr videos)) p = false /\
     throws (Defensive.renderVideos (VArr videos)) p = false).
Proof.
  intros articles videos p Harticles Hvideos.
  pose proof (Forall_video_item_optional videos Hvideos) as Hoptional.
  destruct (Plain_renderArticles_array articles p Harticles)
    as [h1 [Hrun1 Hshows1]].
  destruct (Defensive_renderArticles_array articles p Harticles)
    as [h2 [Hrun2 Hshows2]].
  destruct (Plain_renderVideos_array videos p Hvideos)
    as [h3 [Hrun3 Hshows3]].
  destruct (Defensive_renderVideos_array videos p Hoptional)
    as [h4 [Hrun4 Hshows4]].
  unfold exec, throws. rewrite Hrun1, Hrun2, Hrun3, Hrun4. simpl.
  split; [|split; [|done]].
  - intros Hne. split; by eapply shows_nonempty.
  - intros Hne. split; by eapply shows_nonempty.
Qed.

Lemma render_one_card_per_item_witness :
  Forall (fun a => article_item a = true) [sleep_article; mood_article] /\
  Forall (fun v => video_item v = true) [tagged_video] /\
  cards_of Articles Plain.articleCard [sleep_article; mood_article]
    (articles_container
       (exec (Plain.renderArticles (VArr [sleep_article; mood_article]))
          blank)) /\
  cards_of Videos Defensive.videoCard [tagged_video]
    (videos_container
       (exec (Defensive.renderVideos (VArr [tagged_video])) blank)).
Proof.
  assert (Forall (fun a => article_item a = true)
            [sleep_article; mood_article])
    as Ha by (repeat constructor).
  assert (Forall (fun v => video_item v = true) [tagged_video]) as Hv
    by (repeat constructor).
  destruct (render_one_card_per_item [sleep_article; mood_article]
              [tagged_video] blank Ha Hv) as (Harticles & Hvideos & _).
  split; [exact Ha|]. split; [exact Hv|]. split.
  - apply Harticles. discriminate.
  - apply Hvideos. discriminate.
Defined.

(** ** The filters *)

Lemma renders_intro k card placeholder items shown m p html :
  m p = (Normal tt,
         match k with
         | Articles => with_articles_container html p
         | Videos => with_videos_container html p
         end) ->
  shows k card placeholder shown html ->
  data_of k p = VArr items ->
  renders k card placeholder items shown m p.
Proof.
  intros Hrun Hshows Hdata. unfold renders, throws, exec. rewrite Hrun.
  by destruct k.
Qed.

Lemma renders_skip k card placeholder items m p :
  m p = (Normal tt, p) ->
  container_of k p = placeholder ->
  data_of k p = VArr items ->
  renders k card placeholder items [] m p.
Proof.
  intros Hrun Hshows Hdata. unfold renders, throws, exec. by rewrite Hrun.
Qed.



Lemma Plain_filterArticles_all items p :
  articlesData p = VArr items ->
  Forall (fun a => article_item a = true) items ->
  renders Articles Plain.articleCard (placeholder_of Articles) items items
    (Plain.filterArticles "all") p.
Proof.
  intros Hdata Hall.
  destruct (Plain_renderArticles_array items p Hall) as [html [Hrun Hshows]].
  apply (renders_intro Articles _ _ _ _ _ _ html); [|done|done].
  unfold Plain.filterArticles. script_unfold. by rewrite Hdata.
Qed.

Lemma Plain_filterVideos_all items p :
  videosData p = VArr items ->
  Forall (fun v => video_item v = true) items ->
  renders Videos Plain.videoCard (placeholder_of Videos) items items
    (Plain.filterVideos "all") p.
Proof.
  intros Hdata Hall.
  destruct (Plain_renderVideos_array items p Hall) as [html [Hrun Hshows]].
  apply (renders_intro Videos _ _ _ _ _ _ html); [|done|done].
  unfold Plain.filterVideos. script_unfold. by rewrite Hdata.
Qed.

Lemma Defensive_filterArticles_all lc items p :
  articlesData p = VArr items ->
  (items = [] -> articles_container p = placeholder_of Articles) ->
  Forall (fun a => article_item a = true) items ->
  renders Articles Defensive.articleCard (placeholder_of Articles) items items
    (Defensive.filterArticles lc "all") p.
Proof.
  intros Hdata Hempty Hall. destruct items as [|a rest].
  - apply (renders_skip Articles); [|by apply Hempty|done].
    by apply Defensive_filter_empty.
  - destruct (Defensive_renderArticles_array (a :: rest) p Hall)
      as [html [Hrun Hshows]].
    apply (renders_intro Articles _ _ _ _ _ _ html); [|done|done].
    unfold Defensive.filterArticles. script_unfold. rewrite Hdata.
    by rewrite missing_or_empty_array.
Qed.

Lemma Defensive_filterVideos_all lc items p :
  videosData p = VArr items ->
  (items = [] -> videos_container p = placeholder_of Videos) ->
  Forall (fun v => video_item_optional_tags v = true) items ->
  renders Videos Defensive.videoCard (placeholder_of Videos) items items
    (Defensive.filterVideos lc "all") p.
Proof.
  intros Hdata Hempty Hall. destruct items as [|a rest].
  - apply (renders_skip Videos); [|by apply Hempty|done].
    by apply Defensive_filter_empty.
  - destruct (Defensive_renderVideos_array (a :: rest) p Hall)
      as [html [Hrun Hshows]].
    apply (renders_intro Videos _ _ _ _ _ _ html); [|done|done].
    unfold Defensive.filterVideos. script_unfold. rewrite Hdata.
    by rewrite missing_or_empty_array.
Qed.

Lemma untitled_loaded :
  loaded Plain.handle Articles [untitled_article] untitled_plain_page /\
  loaded (Defensive.handle ascii_toLowerCase) Articles [untitled_article]
    untitled_defensive_page.
Proof.
  split.
  - exists blank, untitled_document, [].
    split; [reflexivity|]. split; [constructor | reflexivity].
  - exists blank, untitled_document, [].
    split; [reflexivity|]. split; [constructor | reflexivity].
Qed.

(** C7, counterexample.  An array can be loaded on which filtering by
    'all' renders nothing: with the one article whose title is an object
    with a property named toString loaded, the call throws a TypeError in
    both copies and the container keeps the error message that the loader
    left there. *)
Lemma filter_all_counterexample :
  loaded Plain.handle Articles [untitled_article] untitled_plain_page /\
  Plain.filterArticles "all" untitled_plain_page =
    (Thrown TypeError, untitled_plain_page) /\
  articles_container untitled_plain_page = Plain.articles_error /\
  loaded (Defensive.handle ascii_toLowerCase) Articles [untitled_article]
    untitled_defensive_page /\
  Defensive.filterArticles ascii_toLowerCase "all" untitled_defensive_page =
    (Thrown TypeError, untitled_defensive_page) /\
  articles_container untitled_defensive_page = Defensive.articles_error.
Proof.
  destruct untitled_loaded as [Hp Hq].
  split; [exact Hp|]. split; [reflexivity|]. split; [reflexivity|].
  split; [exact Hq|]. split; reflexivity.
Qed.

(** C7, amended.  The items of an array are values other than [null] and
    [undefined] whose displayed properties, those they have, can be
    converted to text; a video moreover carries an array of tags that can
    be converted to text (in the defensive copy the tags may also be
    missing).  On every page that holds an array of such items, whatever
    its container shows, filtering by 'all' completes, leaves the
    container showing the whole sequence, one card per item in the order
    of the array (the placeholder for none), and leaves the array as it
    was.  The defensive copy returns at once on an empty array, so there
    the placeholder must already be in the container: it is on every page
    on which the empty array has been loaded. *)
Theorem filter_all_is_identity :
  forall (toLowerCase : string -> string) (items : list value) (p : page),
    (articlesData p = VArr items ->
     Forall (fun a => article_item a = true) items ->
     renders Articles Plain.articleCard (placeholder_of Articles) items items
       (Plain.filterArticles "all") p) /\
    (videosData p = VArr items ->
     Forall (fun v => video_item v = true) items ->
     renders Videos Plain.videoCard (placeholder_of Videos) items items
       (Plain.filterVideos "all") p) /\
    (articlesData p = VArr items ->
     (items = [] -> articles_container p = placeholder_of Articles) ->
     Forall (fun a => article_item a = true) items ->
     renders Articles Defensive.articleCard (placeholder_of Articles) items
       items (Defensive.filterArticles toLowerCase "all") p) /\
    (videosData p = VArr items ->
     (items = [] -> videos_container p = placeholder_of Videos) ->
     Forall (fun v => video_item_optional_tags v = true) items ->
     renders Videos Defensive.videoCard (placeholder_of Videos) items items
       (Defensive.filterVideos toLowerCase "all") p) /\
    (forall k : content,
       (loaded Plain.handle k items p -> data_of k p = VArr items) /\
       (loaded (Defensive.handle toLowerCase) k items p ->
        data_of k p = VArr items /\
        (items = [] -> container_of k p = placeholder_of k))).
Proof.
  intros lc items p. split; [|split; [|split; [|split]]].
  - apply Plain_filterArticles_all.
  - apply Plain_filterVideos_all.
  - apply Defensive_filterArticles_all.
  - apply Defensive_filterVideos_all.
  - intros k. split.
    + apply Plain_loaded_data.
    + apply Defensive_loaded_data.
Qed.

Lemma defensive_page_loaded :
  loaded (Defensive.handle ascii_toLowerCase) Articles
    [sleep_article; mood_article] defensive_page.
Proof.
  exists blank, sample_document, sample_events.
  split; [reflexivity|]. split; [repeat constructor | reflexivity].
Qed.

Lemma filter_all_is_identity_witness :
  articlesData plain_page = VArr [sleep_article; mood_article] /\
  Forall (fun a => article_item a = true) [sleep_article; mood_article] /\
  renders Articles Plain.articleCard (placeholder_of Articles)
    [sleep_article; mood_article] [sleep_article; mood_article]
    (Plain.filterArticles "all") plain_page /\
  articlesData defensive_page = VArr [sleep_article; mood_article] /\
  ([sleep_article; mood_article] = [] ->
   articles_container defensive_page = placeholder_of Articles) /\
  renders Articles Defensive.articleCard (placeholder_of Articles)
    [sleep_article; mood_article] [sleep_article; mood_article]
    (Defensive.filterArticles ascii_toLowerCase "all") defensive_page /\
  videosData (with_videosData (VArr []) blank) = VArr [] /\
  videos_container
    (with_videos_container (placeholder_of Videos)
       (with_videosData (VArr []) blank)) = placeholder_of Videos /\
  renders Videos Defensive.videoCard (placeholder_of Videos) [] []
    (Defensive.filterVideos ascii_toLowerCase "all")
    (with_videos_container (placeholder_of Videos)
       (with_videosData (VArr []) blank)) /\
  loaded (Defensive.handle ascii_toLowerCase) Articles
    [sleep_article; mood_article] defensive_page /\
  data_of Articles defensive_page = VArr [sleep_article; mood_article].
Proof.
  assert (Forall (fun a => article_item a = true)
            [sleep_article; mood_article])
    as Hall by (repeat constructor).
  assert ([sleep_article; mood_article] = [] ->
          articles_container defensive_page = placeholder_of Articles)
    as Hempty by discriminate.
  destruct (filter_all_is_identity ascii_toLowerCase
              [sleep_article; mood_article] plain_page) as [Hplain _].
  destruct (filter_all_is_identity ascii_toLowerCase
              [sleep_article; mood_article] defensive_page)
    as (_ & _ & Hdefensive & _ & Hloaded).
  destruct (filter_all_is_identity ascii_toLowerCase []
              (with_videos_container (placeholder_of Videos)
                 (with_videosData (VArr []) blank)))
    as (_ & _ & _ & Hvideos & _).
  split; [reflexivity|]. split; [exact Hall|].
  split; [exact (Hplain eq_refl Hall)|].
  split; [reflexivity|]. split; [exact Hempty|].
  split; [exact (Hdefensive eq_refl Hempty Hall)|].
  split; [reflexivity|]. split; [reflexivity|].
  split; [exact (Hvideos eq_refl (fun _ => eq_refl) (Forall_nil_2 _))|].
  split; [exact defensive_page_loaded|].
  exact (proj1 (proj2 (Hloaded Articles) defensive_page_loaded)).
Defined.

Lemma Plain_filterArticles_renders c items p :
  c <> "all" ->
  articlesData p = VArr items ->
  Forall (fun a => defined a = true) items ->
  Forall (fun a => article_item a = true)
    (List.filter (has_category c) items) ->
  renders Articles Plain.articleCard (placeholder_of Articles) items
    (List.filter (has_category c) items) (Plain.filterArticles c) p.
Proof.
  intros Hc Hdata Hall Hsel.
  destruct (Plain_filterArticles_category c items p Hdata Hall Hsel Hc)
    as [html [Hrun Hshows]].
  by apply (renders_intro Articles _ _ _ _ _ _ html).
Qed.


Lemma Defensive_filterArticles_renders lc c items p :
  c <> "all" ->
  articlesData p = VArr items ->
  (items = [] -> articles_container p = placeholder_of Articles) ->
  Forall (fun a => category_optional a = true) items ->
  Forall (fun a => article_item a = true)
    (List.filter (matches_lowered lc c) items) ->
  renders Articles Defensive.articleCard (placeholder_of Articles) items
    (List.filter (matches_lowered lc c) items)
    (Defensive.filterArticles lc c) p.
Proof.
  intros Hc Hdata Hempty Hall Hsel. destruct items as [|a rest].
  - apply (renders_skip Articles); [|by apply Hempty|done].
    by apply Defensive_filter_empty.
  - destruct (Defensive_filterArticles_category lc c a rest p Hdata Hall
                Hsel Hc) as [html [Hrun Hshows]].
    by apply (renders_intro Articles _ _ _ _ _ _ html).
Qed.





(** A target that lower-casing changes is the lower-casing of no text, so
    the defensive filter's test fails on every item. *)
Lemma matches_lowered_capital lc c a :
  (forall s, lc (lc s) = lc s) -> lc c <> c -> matches_lowered lc c a = false.
Proof.
  intros Hidem Hc. unfold matches_lowered. apply String.eqb_neq.
  intros Heq. apply Hc. by rewrite <- Heq, Hidem.
Qed.




(** C2.  The defensive filter on a target with a capital letter: with the
    articles of category Sleep and sleep in the array, both of which equal
    the target Sleep up to letter case, the filter selects nothing and the
    container shows the placeholder.  The item's category is lower-cased
    before the comparison and the target is not; the lower-case target
    sleep selects both articles, and [src/web/script.js] selects, for the
    target Sleep, the article whose category is exactly Sleep. *)
Theorem filter_match_capital_target :
  Forall (fun a => matches_ignoring_case ascii_toLowerCase "Sleep" a = true)
    [sleep_article; nap_article] /\
  array_filter (Defensive.category_matches ascii_toLowerCase "Sleep")
    [sleep_article; nap_article] = Ok [] /\
  articles_container
    (exec (Defensive.filterArticles ascii_toLowerCase "Sleep")
       (with_articlesData (VArr [sleep_article; nap_article]) blank)) =
    placeholder_of Articles /\
  array_filter (Defensive.category_matches ascii_toLowerCase "sleep")
    [sleep_article; nap_article] = Ok [sleep_article; nap_article] /\
  array_filter (Plain.category_matches "Sleep") [sleep_article; nap_article] =
    Ok [sleep_article].
Proof. split; [repeat constructor | repeat split]. Qed.
(** ** More on the loaders *)

Lemma Plain_loadArticles_success ok data items p :
  get data "articles" = Ok (VArr items) ->
  Forall (fun a => article_item a = true) items ->
  renders Articles Plain.articleCard (placeholder_of Articles) items items
    (Plain.loadArticles (Responded ok (Json data))) p /\
  console (exec (Plain.loadArticles (Responded ok (Json data))) p) =
    console p.
Proof.
  intros Hget Hall.
  destruct (Plain_renderArticles_array items
              (with_articlesData (VArr items) p) Hall)
    as [html [Hrun Hshows]].
  unfold renders, Plain.loadArticles. script_unfold. cbn [fetched json snd].
  rewrite Hget. cbn [articlesData with_articlesData]. rewrite Hrun.
  by simpl.
Qed.

Lemma Plain_loadVideos_success ok data items p :
  get data "videos" = Ok (VArr items) ->
  Forall (fun v => video_item v = true) items ->
  renders Videos Plain.videoCard (placeholder_of Videos) items items
    (Plain.loadVideos (Responded ok (Json data))) p /\
  console (exec (Plain.loadVideos (Responded ok (Json data))) p) = console p.
Proof.
  intros Hget Hall.
  destruct (Plain_renderVideos_array items
              (with_videosData (VArr items) p) Hall)
    as [html [Hrun Hshows]].
  unfold renders, Plain.loadVideos. script_unfold. cbn [fetched json snd].
  rewrite Hget. cbn [videosData with_videosData]. rewrite Hrun.
  by simpl.
Qed.

Lemma Defensive_loadArticles_success data items p :
  get data "articles" = Ok (VArr items) ->
  Forall (fun a => article_item a = true) items ->
  renders Articles Defensive.articleCard (placeholder_of Articles) items items
    (Defensive.loadArticles (Responded true (Json data))) p /\
  console (exec (Defensive.loadArticles (Responded true (Json data))) p) =
    console p.
Proof.
  intros Hget Hall.
  destruct (Defensive_renderArticles_array items
              (with_articlesData (VArr items) p) Hall)
    as [html [Hrun Hshows]].
  unfold renders, Defensive.loadArticles. script_unfold.
  cbn [fetched json snd fst Defensive.check_ok negb].
  rewrite Hget. cbn [or_else truthy articlesData with_articlesData].
  rewrite Hrun. by simpl.
Qed.

Lemma Defensive_loadVideos_success data items p :
  get data "videos" = Ok (VArr items) ->
  Forall (fun v => video_item_optional_tags v = true) items ->
  renders Videos Defensive.videoCard (placeholder_of Videos) items items
    (Defensive.loadVideos (Responded true (Json data))) p /\
  console (exec (Defensive.loadVideos (Responded true (Json data))) p) =
    console p.
Proof.
  intros Hget Hall.
  destruct (Defensive_renderVideos_array items
              (with_videosData (VArr items) p) Hall)
    as [html [Hrun Hshows]].
  unfold renders, Defensive.loadVideos. script_unfold.
  cbn [fetched json snd fst Defensive.check_ok negb].
  rewrite Hget. cbn [or_else truthy videosData with_videosData].
  rewrite Hrun. by simpl.
Qed.

Lemma array_map_raises {B} (f : value -> exn B) (ok : value -> bool)
  (items : list value) :
  (forall a, ok a = false -> f a = Raise TypeError) ->
  forallb ok items = false ->
  (forall a, f a = Raise TypeError \/ exists b, f a = Ok b) ->
  array_map f items = Raise TypeError.
Proof.
  intros Hbad Hsome Hcases. induction items as [|a rest IH]; [discriminate|].
  simpl in *. destruct (ok a) eqn:Ha; simpl in Hsome.
  - destruct (Hcases a) as [->|[b ->]]; [done|]. simpl. by rewrite IH.
  - by rewrite Hbad.
Qed.

Lemma array_filter_raises (f : value -> exn bool) (ok : value -> bool)
  (items : list value) :
  (forall a, ok a = false -> f a = Raise TypeError) ->
  forallb ok items = false ->
  (forall a, f a = Raise TypeError \/ exists b, f a = Ok b) ->
  array_filter f items = Raise TypeError.
Proof.
  intros Hbad Hsome Hcases. induction items as [|a rest IH]; [discriminate|].
  simpl in *. destruct (ok a) eqn:Ha; simpl in Hsome.
  - destruct (Hcases a) as [->|[b ->]]; [done|]. simpl. by rewrite IH.
  - by rewrite Hbad.
Qed.

(** A renderer on an array with an item it cannot render throws, and the
    page stays as it was. *)
Lemma Plain_renderArticles_raises items p :
  forallb article_item items = false ->
  Plain.renderArticles (VArr items) p = (Thrown TypeError, p).
Proof.
  intros Hbad. unfold Plain.renderArticles. script_unfold.
  cbn [get as_array String.eqb Ascii.eqb Bool.eqb].
  rewrite is_number_length. destruct items; [discriminate|].
  rewrite (array_map_raises Plain.articleCard article_item); try done.
  - apply Plain_articleCard_raises.
  - apply Plain_articleCard_cases.
Qed.

Lemma Defensive_renderArticles_raises items p :
  forallb article_item items = false ->
  Defensive.renderArticles (VArr items) p = (Thrown TypeError, p).
Proof.
  intros Hbad. unfold Defensive.renderArticles. script_unfold.
  rewrite missing_or_empty_array. cbn [as_array].
  destruct items; [discriminate|].
  rewrite (array_map_raises Defensive.articleCard article_item); try done.
  - apply Defensive_articleCard_raises.
  - apply Defensive_articleCard_cases.
Qed.

Lemma Plain_loadArticles_unconvertible ok data items p :
  get data "articles" = Ok (VArr items) ->
  forallb article_item items = false ->
  Plain.loadArticles (Responded ok (Json data)) p =
    (Normal tt,
     with_articles_container Plain.articles_error
       (with_console_error "Ошибка загрузки статей:" TypeError
          (with_articlesData (VArr items) p))).
Proof.
  intros Hget Hbad. unfold Plain.loadArticles. script_unfold.
  cbn [fetched json snd]. rewrite Hget.
  cbn [articlesData with_articlesData].
  by rewrite Plain_renderArticles_raises.
Qed.

Lemma Defensive_loadArticles_unconvertible data items p :
  get data "articles" = Ok (VArr items) ->
  forallb article_item items = false ->
  Defensive.loadArticles (Responded true (Json data)) p =
    (Normal tt,
     with_articles_container Defensive.articles_error
       (with_console_error "Ошибка загрузки статей:" TypeError
          (with_articlesData (VArr items) p))).
Proof.
  intros Hget Hbad. unfold Defensive.loadArticles. script_unfold.
  cbn [fetched json snd fst Defensive.check_ok negb]. rewrite Hget.
  cbn [or_else truthy articlesData with_articlesData].
  by rewrite Defensive_renderArticles_raises.
Qed.

(** X1.  A loader that resumes with a document holding its array stores
    the array, fills its container with one card per item (the placeholder
    for none), completes and logs nothing, provided the items are values
    other than [null] and [undefined] whose displayed properties can be
    converted to text (and, for videos, carry an array of tags that can).
    The defensive copy needs the response's status to be a success;
    [src/web/script.js] does not look at it.  When some article of the
    array is not such a value, the article loader of either copy still
    stores the array, but ends in its catch branch: it logs the TypeError
    and leaves its error message in the container. *)
Theorem load_success_stores_and_renders :
  forall (ok : bool) (data : value) (items : list value) (p : page),
    (get data "articles" = Ok (VArr items) ->
     Forall (fun a => article_item a = true) items ->
     renders Articles Plain.articleCard (placeholder_of Articles) items items
       (Plain.loadArticles (Responded ok (Json data))) p /\
     console (exec (Plain.loadArticles (Responded ok (Json data))) p) =
       console p /\
     renders Articles Defensive.articleCard (placeholder_of Articles) items
       items (Defensive.loadArticles (Responded true (Json data))) p /\
     console (exec (Defensive.loadArticles (Responded true (Json data))) p) =
       console p) /\
    (get data "videos" = Ok (VArr items) ->
     Forall (fun v => video_item v = true) items ->
     renders Videos Plain.videoCard (placeholder_of Videos) items items
       (Plain.loadVideos (Responded ok (Json data))) p /\
     console (exec (Plain.loadVideos (Responded ok (Json data))) p) =
       console p /\
     renders Videos Defensive.videoCard (placeholder_of Videos) items items
       (Defensive.loadVideos (Responded true (Json data))) p /\
     console (exec (Defensive.loadVideos (Responded true (Json data))) p) =
       console p) /\
    (get data "articles" = Ok (VArr items) ->
     forallb article_item items = false ->
     Plain.loadArticles (Responded ok (Json data)) p =
       (Normal tt,
        with_articles_container Plain.articles_error
          (with_console_error "Ошибка загрузки статей:" TypeError
             (with_articlesData (VArr items) p))) /\
     Defensive.loadArticles (Responded true (Json data)) p =
       (Normal tt,
        with_articles_container Defensive.articles_error
          (with_console_error "Ошибка загрузки статей:" TypeError
             (with_articlesData (VArr items) p)))).
Proof.
  intros ok data items p. split; [|split].
  - intros Hget Hall.
    destruct (Plain_loadArticles_success ok data items p Hget Hall).
    destruct (Defensive_loadArticles_success data items p Hget Hall).
    done.
  - intros Hget Hall.
    destruct (Plain_loadVideos_success ok data items p Hget Hall).
    destruct (Defensive_loadVideos_success data items p Hget) as [? ?].
    { by apply Forall_video_item_optional. }
    done.
  - intros Hget Hbad. split.
    + by apply Plain_loadArticles_unconvertible.
    + by apply Defensive_loadArticles_unconvertible.
Qed.

Lemma load_success_stores_and_renders_witness :
  get sample_document "articles" = Ok (VArr [sleep_article; mood_article]) /\
  Forall (fun a => article_item a = true) [sleep_article; mood_article] /\
  renders Articles Plain.articleCard (placeholder_of Articles)
    [sleep_article; mood_article] [sleep_article; mood_article]
    (Plain.loadArticles (Responded false (Json sample_document))) blank /\
  get sample_document "videos" = Ok (VArr [tagged_video]) /\
  Forall (fun v => video_item v = true) [tagged_video] /\
  renders Videos Defensive.videoCard (placeholder_of Videos) [tagged_video]
    [tagged_video]
    (Defensive.loadVideos (Responded true (Json sample_document))) blank /\
  get untitled_document "articles" = Ok (VArr [untitled_article]) /\
  forallb article_item [untitled_article] = false /\
  articles_container
    (exec (Plain.loadArticles (Responded true (Json untitled_document)))
       blank) = Plain.articles_error.
Proof.
  assert (Forall (fun a => article_item a = true)
            [sleep_article; mood_article])
    as Ha by (repeat constructor).
  assert (Forall (fun v => video_item v = true) [tagged_video]) as Hv
    by (repeat constructor).
  destruct (load_success_stores_and_renders false sample_document
              [sleep_article; mood_article] blank) as [Harticles _].
  destruct (load_success_stores_and_renders false sample_document
              [tagged_video] blank) as (_ & Hvideos & _).
  destruct (load_success_stores_and_renders true untitled_document
              [untitled_article] blank) as (_ & _ & Hbad).
  split; [reflexivity|]. split; [exact Ha|].
  split; [exact (proj1 (Harticles eq_refl Ha))|].
  split; [reflexivity|]. split; [exact Hv|].
  split; [exact (proj1 (proj2 (proj2 (Hvideos eq_refl Hv))))|].
  split; [reflexivity|]. split; [reflexivity|].
  unfold exec. by rewrite (proj1 (Hbad eq_refl eq_refl)).
Defined.

(** X2.  In the defensive copy, a successful response whose document has
    no [articles] (resp. [videos]) property, or a falsy one such as [null],
    is not an error: the array becomes empty, the container shows the
    placeholder and nothing is logged. *)
Theorem defensive_load_defaults_to_empty :
  forall (data : value) (p : page),
    defined data = true ->
    (truthy (field "articles" data) = false ->
     let p' := exec (Defensive.loadArticles (Responded true (Json data))) p in
     throws (Defensive.loadArticles (Responded true (Json data))) p = false /\
     articlesData p' = VArr [] /\
     articles_container p' = Defensive.no_articles /\
     console p' = console p) /\
    (truthy (field "videos" data) = false ->
     let p' := exec (Defensive.loadVideos (Responded true (Json data))) p in
     throws (Defensive.loadVideos (Responded true (Json data))) p = false /\
     videosData p' = VArr [] /\
     videos_container p' = Defensive.no_videos /\
     console p' = console p).
Proof.
  intros data p Hdata. split; intros Hfalsy;
    defensive_unfold; script_unfold; cbn [fetched json snd fst
      Defensive.check_ok negb];
    rewrite (get_defined data) by done;
    unfold or_else; rewrite Hfalsy; done.
Qed.

Lemma defensive_load_defaults_to_empty_witness :
  defined (VObj [("videos", VNull)]) = true /\
  truthy (field "articles" (VObj [("videos", VNull)])) = false /\
  truthy (field "videos" (VObj [("videos", VNull)])) = false /\
  articlesData
    (exec (Defensive.loadArticles
             (Responded true (Json (VObj [("videos", VNull)])))) blank) =
    VArr [] /\
  videos_container
    (exec (Defensive.loadVideos
             (Responded true (Json (VObj [("videos", VNull)])))) blank) =
    Defensive.no_videos.
Proof.
  destruct (defensive_load_defaults_to_empty (VObj [("videos", VNull)])
              blank eq_refl) as [Harticles Hvideos].
  split; [reflexivity|]. split; [reflexivity|]. split; [reflexivity|].
  split.
  - exact (proj1 (proj2 (Harticles eq_refl))).
  - exact (proj1 (proj2 (proj2 (Hvideos eq_refl)))).
Defined.

Ltac settle :=
  first [ by left | right; eexists; split; reflexivity ].

(** X3.  No exception leaves a loader, whatever the fetch gave and
    whatever the document holds: the loader completes, and either it
    logged nothing or it logged exactly one line and left its error
    message in its container. *)
Theorem loaders_catch_everything :
  forall (r : fetch_outcome) (p : page),
    (throws (Plain.loadArticles r) p = false /\
     settled Articles "Ошибка загрузки статей:" Plain.articles_error p
       (exec (Plain.loadArticles r) p)) /\
    (throws (Plain.loadVideos r) p = false /\
     settled Videos "Ошибка загрузки видео:" Plain.videos_error p
       (exec (Plain.loadVideos r) p)) /\
    (throws (Defensive.loadArticles r) p = false /\
     settled Articles "Ошибка загрузки статей:" Defensive.articles_error p
       (exec (Defensive.loadArticles r) p)) /\
    (throws (Defensive.loadVideos r) p = false /\
     settled Videos "Ошибка загрузки видео:" Defensive.videos_error p
       (exec (Defensive.loadVideos r) p)).
Proof.
  intros r p. unfold settled. split; [|split; [|split]].
  1-2: plain_unfold; split; run_all; settle.
  all: defensive_unfold; split; run_all; settle.
Qed.

(** X4.  A loader whose fetch brought no document keeps its own array as
    it was, so what was loaded before stays available to the filters; in
    the defensive copy the same holds for every response whose status is
    not a success. *)
Theorem failed_fetch_keeps_array :
  forall (r : fetch_outcome) (p : page),
    (no_document r = true ->
     articlesData (exec (Plain.loadArticles r) p) = articlesData p /\
     videosData (exec (Plain.loadVideos r) p) = videosData p) /\
    (failed r || no_document r = true ->
     articlesData (exec (Defensive.loadArticles r) p) = articlesData p /\
     videosData (exec (Defensive.loadVideos r) p) = videosData p).
Proof.
  intros r p. split; intros Hr.
  - destruct r as [|ok [data|]]; try discriminate; done.
  - destruct r as [|[|] [data|]]; try discriminate; done.
Qed.

Lemma failed_fetch_keeps_array_witness :
  no_document Rejected = true /\
  failed (Responded false (Json sample_document)) ||
    no_document (Responded false (Json sample_document)) = true /\
  articlesData (exec (Plain.loadArticles Rejected) plain_page) =
    articlesData plain_page /\
  articlesData
    (exec (Defensive.loadArticles (Responded false (Json sample_document)))
       defensive_page) = articlesData defensive_page.
Proof.
  destruct (failed_fetch_keeps_array Rejected plain_page) as [Hplain _].
  destruct (failed_fetch_keeps_array
              (Responded false (Json sample_document)) defensive_page)
    as [_ Hdefensive].
  split; [reflexivity|]. split; [reflexivity|]. split.
  - exact (proj1 (Hplain eq_refl)).
  - exact (proj1 (Hdefensive eq_refl)).
Defined.

(** ** Calls as effects on a container *)

Lemma Plain_renderArticles_effect v :
  exists o, o <> Leaves /\ forall p,
    Plain.renderArticles v p = outcome with_articles_container o p.
Proof.
  unfold Plain.renderArticles. script_unfold.
  destruct (get v "length") as [len|e]; [|by exists (Fails e)].
  destruct (is_number len 0); [by exists (Paints Plain.no_articles)|].
  destruct (as_array v) as [elements|e]; [|by exists (Fails e)].
  destruct (array_map Plain.articleCard elements) as [cards|e];
    [by exists (Paints (join cards)) | by exists (Fails e)].
Qed.

Lemma Plain_renderVideos_effect v :
  exists o, o <> Leaves /\ forall p,
    Plain.renderVideos v p = outcome with_videos_container o p.
Proof.
  unfold Plain.renderVideos. script_unfold.
  destruct (get v "length") as [len|e]; [|by exists (Fails e)].
  destruct (is_number len 0); [by exists (Paints Plain.no_videos)|].
  destruct (as_array v) as [elements|e]; [|by exists (Fails e)].
  destruct (array_map Plain.videoCard elements) as [cards|e];
    [by exists (Paints (join cards)) | by exists (Fails e)].
Qed.

Lemma Defensive_renderArticles_effect v :
  exists o, o <> Leaves /\ forall p,
    Defensive.renderArticles v p = outcome with_articles_container o p.
Proof.
  unfold Defensive.renderArticles. script_unfold.
  destruct (Defensive.missing_or_empty v) as [[|]|e];
    [by exists (Paints Defensive.no_articles)| |by exists (Fails e)].
  destruct (as_array v) as [elements|e]; [|by exists (Fails e)].
  destruct (array_map Defensive.articleCard elements) as [cards|e];
    [by exists (Paints (join cards)) | by exists (Fails e)].
Qed.

Lemma Defensive_renderVideos_effect v :
  exists o, o <> Leaves /\ forall p,
    Defensive.renderVideos v p = outcome with_videos_container o p.
Proof.
  unfold Defensive.renderVideos. script_unfold.
  destruct (Defensive.missing_or_empty v) as [[|]|e];
    [by exists (Paints Defensive.no_videos)| |by exists (Fails e)].
  destruct (as_array v) as [elements|e]; [|by exists (Fails e)].
  destruct (array_map Defensive.videoCard elements) as [cards|e];
    [by exists (Paints (join cards)) | by exists (Fails e)].
Qed.

Lemma Plain_filterArticles_effect c data :
  exists o, o <> Leaves /\ forall p,
    articlesData p = data ->
    Plain.filterArticles c p = outcome with_articles_container o p.
Proof.
  unfold Plain.filterArticles. script_unfold.
  destruct (String.eqb c "all").
  - destruct (Plain_renderArticles_effect data) as (o & Hne & Ho).
    exists o. split; [done|]. by intros p ->.
  - destruct (as_array data) as [elements|e] eqn:Harray.
    + destruct (array_filter (Plain.category_matches c) elements)
        as [filtered|e] eqn:Hfilter.
      * destruct (Plain_renderArticles_effect (VArr filtered))
          as (o & Hne & Ho).
        exists o. split; [done|]. intros p ->. by rewrite Harray, Hfilter.
      * exists (Fails e). split; [done|].
        intros p ->. by rewrite Harray, Hfilter.
    + exists (Fails e). split; [done|]. intros p ->. by rewrite Harray.
Qed.

Lemma Plain_filterVideos_effect c data :
  exists o, o <> Leaves /\ forall p,
    videosData p = data ->
    Plain.filterVideos c p = outcome with_videos_container o p.
Proof.
  unfold Plain.filterVideos. script_unfold.
  destruct (String.eqb c "all").
  - destruct (Plain_renderVideos_effect data) as (o & Hne & Ho).
    exists o. split; [done|]. by intros p ->.
  - destruct (as_array data) as [elements|e] eqn:Harray.
    + destruct (array_filter (Plain.category_matches c) elements)
        as [filtered|e] eqn:Hfilter.
      * destruct (Plain_renderVideos_effect (VArr filtered))
          as (o & Hne & Ho).
        exists o. split; [done|]. intros p ->. by rewrite Harray, Hfilter.
      * exists (Fails e). split; [done|].
        intros p ->. by rewrite Harray, Hfilter.
    + exists (Fails e). split; [done|]. intros p ->. by rewrite Harray.
Qed.

Lemma Defensive_filterArticles_effect lc c data :
  exists o,
    (o = Leaves <-> Defensive.missing_or_empty data = Ok true) /\
    forall p,
      articlesData p = data ->
      Defensive.filterArticles lc c p = outcome with_articles_container o p.
Proof.
  unfold Defensive.filterArticles. script_unfold.
  destruct (Defensive.missing_or_empty data) as [[|]|e] eqn:Hnone.
  - exists Leaves. split; [done|]. intros p ->. by rewrite Hnone.
  - destruct (String.eqb c "all").
    + destruct (Defensive_renderArticles_effect data) as (o & Hne & Ho).
      exists o. split; [done|]. intros p ->. by rewrite Hnone.
    + destruct (as_array data) as [elements|e] eqn:Harray.
      * destruct (array_filter (Defensive.category_matches lc c) elements)
          as [filtered|e] eqn:Hfilter.
        -- destruct (Defensive_renderArticles_effect (VArr filtered))
             as (o & Hne & Ho).
           exists o. split; [done|].
           intros p ->. by rewrite Hnone, Harray, Hfilter.
        -- exists (Fails e). split; [done|].
           intros p ->. by rewrite Hnone, Harray, Hfilter.
      * exists (Fails e). split; [done|].
        intros p ->. by rewrite Hnone, Harray.
  - exists (Fails e). split; [done|]. intros p ->. by rewrite Hnone.
Qed.

Lemma Defensive_filterVideos_effect lc c data :
  exists o,
    (o = Leaves <-> Defensive.missing_or_empty data = Ok true) /\
    forall p,
      videosData p = data ->
      Defensive.filterVideos lc c p = outcome with_videos_container o p.
Proof.
  unfold Defensive.filterVideos. script_unfold.
  destruct (Defensive.missing_or_empty data) as [[|]|e] eqn:Hnone.
  - exists Leaves. split; [done|]. intros p ->. by rewrite Hnone.
  - destruct (String.eqb c "all").
    + destruct (Defensive_renderVideos_effect data) as (o & Hne & Ho).
      exists o. split; [done|]. intros p ->. by rewrite Hnone.
    + destruct (as_array data) as [elements|e] eqn:Harray.
      * destruct (array_filter (Defensive.category_matches lc c) elements)
          as [filtered|e] eqn:Hfilter.
        -- destruct (Defensive_renderVideos_effect (VArr filtered))
             as (o & Hne & Ho).
           exists o. split; [done|].
           intros p ->. by rewrite Hnone, Harray, Hfilter.
        -- exists (Fails e). split; [done|].
           intros p ->. by rewrite Hnone, Harray, Hfilter.
      * exists (Fails e). split; [done|].
        intros p ->. by rewrite Hnone, Harray.
  - exists (Fails e). split; [done|]. intros p ->. by rewrite Hnone.
Qed.

(** ** More on the filters *)

(** X5.  A filter call does nothing but repaint its own container, and
    what it does is decided by the array alone: for every category and
    every array there is one effect (a throw that leaves the page exactly
    as it was, a return without any change, or new markup in the filter's
    container) that the call has on every page holding that array.  The
    arrays, the other container, the modal, the notices and the console
    are never touched. *)
Theorem filters_only_repaint :
  forall (toLowerCase : string -> string) (c : string) (data : value),
    (exists o, forall p,
       articlesData p = data ->
       Plain.filterArticles c p = outcome with_articles_container o p) /\
    (exists o, forall p,
       videosData p = data ->
       Plain.filterVideos c p = outcome with_videos_container o p) /\
    (exists o, forall p,
       articlesData p = data ->
       Defensive.filterArticles toLowerCase c p =
         outcome with_articles_container o p) /\
    (exists o, forall p,
       videosData p = data ->
       Defensive.filterVideos toLowerCase c p =
         outcome with_videos_container o p).
Proof.
  intros lc c data. split; [|split; [|split]].
  - destruct (Plain_filterArticles_effect c data) as (o & _ & Ho). eauto.
  - destruct (Plain_filterVideos_effect c data) as (o & _ & Ho). eauto.
  - destruct (Defensive_filterArticles_effect lc c data) as (o & _ & Ho).
    eauto.
  - destruct (Defensive_filterVideos_effect lc c data) as (o & _ & Ho).
    eauto.
Qed.

Lemma filters_only_repaint_witness :
  articlesData plain_page = VArr [sleep_article; mood_article] /\
  exists o,
    Plain.filterArticles "mood" plain_page =
      outcome with_articles_container o plain_page.
Proof.
  split; [reflexivity|].
  destruct (filters_only_repaint ascii_toLowerCase "mood"
              (VArr [sleep_article; mood_article])) as [[o Ho] _].
  exists o. apply Ho. reflexivity.
Defined.

(** X6.  The arrays change at fetches only: through any sequence of
    filter clicks, openings and closings of the modal and fetches of the
    other kind, the array of a kind stays what it was. *)
Theorem arrays_change_only_on_fetch :
  forall (toLowerCase : string -> string) (k : content)
         (events : list event) (p : page),
    Forall (fun e => is_fetched_event k e = false) events ->
    data_of k (run Plain.handle events p) = data_of k p /\
    data_of k (run (Defensive.handle toLowerCase) events p) = data_of k p.
Proof.
  intros lc k events p Hall. split.
  - apply (run_invariant Plain.handle k
             (fun q => data_of k q = data_of k p)); [|done|done].
    intros e q He Hq. by rewrite Plain_handle_data.
  - apply (run_invariant (Defensive.handle lc) k
             (fun q => data_of k q = data_of k p)); [|done|done].
    intros e q He Hq. by rewrite Defensive_handle_data.
Qed.

Lemma arrays_change_only_on_fetch_witness :
  Forall (fun e => is_fetched_event Articles e = false)
    (FetchedVideos Rejected :: sample_events) /\
  data_of Articles
    (run Plain.handle (FetchedVideos Rejected :: sample_events) plain_page) =
    data_of Articles plain_page.
Proof.
  assert (Forall (fun e => is_fetched_event Articles e = false)
            (FetchedVideos Rejected :: sample_events)) as Hall
    by (repeat constructor).
  split; [exact Hall|].
  exact (proj1 (arrays_change_only_on_fetch ascii_toLowerCase Articles
                  (FetchedVideos Rejected :: sample_events) plain_page Hall)).
Defined.

(** X7.  Filters do not stack: what a filter call leaves depends on the
    array only, not on what an earlier filter call showed.  After any
    filter call, a second one leaves exactly the page it would have left
    alone, unless it throws, in which case the page of the first one
    stays.  In particular repeating a filter call changes nothing. *)
Theorem last_filter_wins :
  forall (toLowerCase : string -> string) (c1 c2 : string) (p : page),
    exec (Plain.filterArticles c2) (exec (Plain.filterArticles c1) p) =
      (if throws (Plain.filterArticles c2) p
       then exec (Plain.filterArticles c1) p
       else exec (Plain.filterArticles c2) p) /\
    exec (Plain.filterVideos c2) (exec (Plain.filterVideos c1) p) =
      (if throws (Plain.filterVideos c2) p
       then exec (Plain.filterVideos c1) p
       else exec (Plain.filterVideos c2) p) /\
    exec (Defensive.filterArticles toLowerCase c2)
      (exec (Defensive.filterArticles toLowerCase c1) p) =
      (if throws (Defensive.filterArticles toLowerCase c2) p
       then exec (Defensive.filterArticles toLowerCase c1) p
       else exec (Defensive.filterArticles toLowerCase c2) p) /\
    exec (Defensive.filterVideos toLowerCase c2)
      (exec (Defensive.filterVideos toLowerCase c1) p) =
      (if throws (Defensive.filterVideos toLowerCase c2) p
       then exec (Defensive.filterVideos toLowerCase c1) p
       else exec (Defensive.filterVideos toLowerCase c2) p).
Proof.
  intros lc c1 c2 p. unfold exec, throws. split; [|split; [|split]].
  - destruct (Plain_filterArticles_effect c1 (articlesData p))
      as (o1 & N1 & H1).
    destruct (Plain_filterArticles_effect c2 (articlesData p))
      as (o2 & N2 & H2).
    rewrite (H1 p eq_refl), (H2 p eq_refl), H2; by destruct o1, o2.
  - destruct (Plain_filterVideos_effect c1 (videosData p))
      as (o1 & N1 & H1).
    destruct (Plain_filterVideos_effect c2 (videosData p))
      as (o2 & N2 & H2).
    rewrite (H1 p eq_refl), (H2 p eq_refl), H2; by destruct o1, o2.
  - destruct (Defensive_filterArticles_effect lc c1 (articlesData p))
      as (o1 & N1 & H1).
    destruct (Defensive_filterArticles_effect lc c2 (articlesData p))
      as (o2 & N2 & H2).
    rewrite (H1 p eq_refl), (H2 p eq_refl), H2; [|by destruct o1].
    destruct o1, o2; try done.
    pose proof (proj1 N2 eq_refl) as M. apply N1 in M. discriminate.
  - destruct (Defensive_filterVideos_effect lc c1 (videosData p))
      as (o1 & N1 & H1).
    destruct (Defensive_filterVideos_effect lc c2 (videosData p))
      as (o2 & N2 & H2).
    rewrite (H1 p eq_refl), (H2 p eq_refl), H2; [|by destruct o1].
    destruct o1, o2; try done.
    pose proof (proj1 N2 eq_refl) as M. apply N1 in M. discriminate.
Qed.


(** ** When the article filter throws *)

Lemma Plain_category_matches_cases c a :
  Plain.category_matches c a = Raise TypeError \/
  exists b, Plain.category_matches c a = Ok b.
Proof.
  destruct (defined a) eqn:Ha.
  - right. rewrite Plain_category_matches by done. eauto.
  - left. by destruct a.
Qed.

Lemma Defensive_category_matches_raises lc c a :
  category_optional a = false ->
  Defensive.category_matches lc c a = Raise TypeError.
Proof.
  unfold category_optional, Defensive.category_matches, or_else.
  destruct (defined a) eqn:Ha; [|by destruct a].
  rewrite get_defined by done. simpl.
  destruct (field "category" a) as [| |b|n|s| |]; simpl; try done.
  - by destruct b.
  - by destruct (Z.eqb (number_value n) 0).
  - rewrite orb_true_r. discriminate.
Qed.

Lemma Defensive_category_matches_cases lc c a :
  Defensive.category_matches lc c a = Raise TypeError \/
  exists b, Defensive.category_matches lc c a = Ok b.
Proof.
  destruct (category_optional a) eqn:Ha.
  - right. rewrite Defensive_category_matches by done. eauto.
  - left. by apply Defensive_category_matches_raises.
Qed.

Lemma Plain_filterArticles_throws c items p :
  articlesData p = VArr items ->
  throws (Plain.filterArticles c) p =
  negb (if String.eqb c "all" then forallb article_item items
        else forallb defined items &&
             forallb article_item (List.filter (has_category c) items)).
Proof.
  intros Hdata. destruct (String.eqb_spec c "all") as [->|Hc].
  - destruct (forallb article_item items) eqn:Hok; simpl.
    + apply forallb_Forall in Hok.
      by destruct (Plain_filterArticles_all items p Hdata Hok).
    + unfold Plain.filterArticles, throws. script_unfold. rewrite Hdata.
      cbn [String.eqb Ascii.eqb Bool.eqb].
      by rewrite Plain_renderArticles_raises.
  - destruct (forallb defined items) eqn:Hdefined; cbn [andb].
    + apply forallb_Forall in Hdefined.
      destruct (forallb article_item (List.filter (has_category c) items))
        eqn:Hok; simpl.
      * apply forallb_Forall in Hok.
        by destruct (Plain_filterArticles_renders c items p Hc Hdata
                       Hdefined Hok).
      * unfold Plain.filterArticles, throws. script_unfold. rewrite Hdata.
        apply String.eqb_neq in Hc. rewrite Hc. cbn [as_array].
        rewrite Plain_filter_array by done.
        by rewrite Plain_renderArticles_raises.
    + unfold Plain.filterArticles, throws. script_unfold. rewrite Hdata.
      apply String.eqb_neq in Hc. rewrite Hc. cbn [as_array].
      rewrite (array_filter_raises (Plain.category_matches c) defined);
        try done.
      * intros a Ha. by destruct a.
      * apply Plain_category_matches_cases.
Qed.

Lemma Defensive_filterArticles_throws lc c a rest p :
  articlesData p = VArr (a :: rest) ->
  throws (Defensive.filterArticles lc c) p =
  negb (if String.eqb c "all" then forallb article_item (a :: rest)
        else forallb category_optional (a :: rest) &&
             forallb article_item
               (List.filter (matches_lowered lc c) (a :: rest))).
Proof.
  intros Hdata. destruct (String.eqb_spec c "all") as [->|Hc].
  - destruct (forallb article_item (a :: rest)) eqn:Hok; cbn [negb].
    + apply forallb_Forall in Hok.
      by destruct (Defensive_filterArticles_all lc (a :: rest) p Hdata).
    + unfold Defensive.filterArticles, throws. script_unfold.
      rewrite Hdata, missing_or_empty_array.
      cbn [String.eqb Ascii.eqb Bool.eqb].
      by rewrite Defensive_renderArticles_raises.
  - destruct (forallb category_optional (a :: rest)) eqn:Hcategories;
      cbn [andb].
    + apply forallb_Forall in Hcategories.
      destruct (forallb article_item
                  (List.filter (matches_lowered lc c) (a :: rest)))
        eqn:Hok; cbn [negb].
      * apply forallb_Forall in Hok.
        by destruct (Defensive_filterArticles_renders lc c (a :: rest) p Hc
                       Hdata).
      * unfold Defensive.filterArticles, throws. script_unfold.
        rewrite Hdata, missing_or_empty_array.
        apply String.eqb_neq in Hc. rewrite Hc. cbn [as_array].
        rewrite Defensive_filter_array by done.
        by rewrite Defensive_renderArticles_raises.
    + unfold Defensive.filterArticles, throws. script_unfold.
      rewrite Hdata, missing_or_empty_array.
      apply String.eqb_neq in Hc. rewrite Hc. cbn [as_array].
      rewrite (array_filter_raises (Defensive.category_matches lc c)
                 category_optional); try done.
      * apply Defensive_category_matches_raises.
      * apply Defensive_category_matches_cases.
Qed.

(** X8.  When the article filter throws.  An article can be rendered when
    it is neither [null] nor [undefined] and its displayed properties,
    those it has, can be converted to text.  With an array in place,
    [filterArticles] of [src/web/script.js] throws exactly when, for 'all',
    some item cannot be rendered, and, for another category, when some
    item is [null] or [undefined] or some item of that category cannot be
    rendered.  The defensive copy never throws on the empty array; on
    another array it throws, for 'all', exactly when some item cannot be
    rendered, and, for another category, when some item is [null] or
    [undefined] or has a truthy category that is not text (its
    [toLowerCase] call has nothing to call), or some selected item cannot
    be rendered. *)
Theorem article_filter_throws_exactly :
  forall (toLowerCase : string -> string) (c : string)
         (items : list value) (p : page),
    articlesData p = VArr items ->
    throws (Plain.filterArticles c) p =
      negb (if String.eqb c "all" then forallb article_item items
            else forallb defined items &&
                 forallb article_item
                   (List.filter (has_category c) items)) /\
    throws (Defensive.filterArticles toLowerCase c) p =
      match items with
      | [] => false
      | _ :: _ =>
          negb (if String.eqb c "all" then forallb article_item items
                else forallb category_optional items &&
                     forallb article_item
                       (List.filter (matches_lowered toLowerCase c) items))
      end.
Proof.
  intros lc c items p Hdata. split.
  - by apply Plain_filterArticles_throws.
  - destruct items as [|a rest].
    + destruct (Defensive_filter_empty lc c p) as [Hskip _].
      unfold throws. by rewrite (Hskip Hdata).
    + by apply Defensive_filterArticles_throws.
Qed.

Lemma article_filter_throws_exactly_witness :
  articlesData
    (with_articlesData (VArr [mood_article; numeric_category_article]) blank) =
    VArr [mood_article; numeric_category_article] /\
  throws (Plain.filterArticles "mood")
    (with_articlesData (VArr [mood_article; numeric_category_article]) blank) =
    false /\
  throws (Defensive.filterArticles ascii_toLowerCase "mood")
    (with_articlesData (VArr [mood_article; numeric_category_article]) blank) =
    true /\
  articlesData untitled_plain_page = VArr [untitled_article] /\
  throws (Plain.filterArticles "mood") untitled_plain_page = true /\
  throws (Plain.filterArticles "sleep") untitled_plain_page = false.
Proof.
  split; [reflexivity|].
  split; [|split; [|split; [reflexivity|split]]].
  - exact (proj1 (article_filter_throws_exactly ascii_toLowerCase "mood"
             [mood_article; numeric_category_article]
             (with_articlesData
                (VArr [mood_article; numeric_category_article]) blank)
             eq_refl)).
  - exact (proj2 (article_filter_throws_exactly ascii_toLowerCase "mood"
             [mood_article; numeric_category_article]
             (with_articlesData
                (VArr [mood_article; numeric_category_article]) blank)
             eq_refl)).
  - exact (proj1 (article_filter_throws_exactly ascii_toLowerCase "mood"
             [untitled_article] untitled_plain_page eq_refl)).
  - exact (proj1 (article_filter_throws_exactly ascii_toLowerCase "sleep"
             [untitled_article] untitled_plain_page eq_refl)).
Defined.
(** ** Runs of events *)

Lemma run_preserves (handle : event -> page -> page) (Inv : page -> Prop) :
  (forall e p, Inv p -> Inv (handle e p)) ->
  forall events p, Inv p -> Inv (run handle events p).
Proof.
  intros Hstep events. induction events as [|e rest IH]; intros p Hp.
  - exact Hp.
  - simpl. apply IH. by apply Hstep.
Qed.

Lemma embed_url_not_empty (id : value) (url : string) :
  Plain.embed_url id = Ok url -> String.eqb url EmptyString = false.
Proof.
  unfold Plain.embed_url. destruct (to_string id) as [s|e]; [|discriminate].
  intros [= <-]. reflexivity.
Qed.

Lemma Plain_handle_modal e p :
  modal_consistent p -> modal_consistent (Plain.handle e p).
Proof.
  unfold modal_consistent. intros Hp.
  destruct e as [r|r|c|c|id|]; [..|done].
  1-4: plain_unfold; run_all.
  unfold Plain.handle, Plain.openVideo. script_unfold.
  destruct (Plain.embed_url id) as [url|e] eqn:Hurl; [|exact Hp].
  simpl. by rewrite (embed_url_not_empty id url Hurl).
Qed.

Lemma Defensive_handle_modal lc e p :
  modal_consistent p -> modal_consistent (Defensive.handle lc e p).
Proof.
  unfold modal_consistent. intros Hp.
  destruct e as [r|r|c|c|id|]; [..|done].
  1-4: defensive_unfold; run_all.
  unfold Defensive.handle, Defensive.openVideo. script_unfold.
  destruct (negb (truthy id)); [exact Hp|].
  change Defensive.embed_url with Plain.embed_url.
  destruct (Plain.embed_url id) as [url|e] eqn:Hurl; [|exact Hp].
  simpl. by rewrite (embed_url_not_empty id url Hurl).
Qed.

(** X9.  The player has a source exactly when the modal is open.  This
    holds on the page as the script sets it up and is kept by every event,
    so it holds after any sequence of fetches, filter clicks, openings
    (with any identifier, also an empty one) and closings. *)
Theorem modal_source_iff_open :
  forall (toLowerCase : string -> string) (events : list event)
         (articles_html videos_html : string) (p : page),
    modal_consistent (initial_page articles_html videos_html) /\
    (modal_consistent p ->
     modal_consistent (run Plain.handle events p) /\
     modal_consistent (run (Defensive.handle toLowerCase) events p)).
Proof.
  intros lc events a v p. split; [reflexivity|]. intros Hp. split.
  - apply run_preserves; [apply Plain_handle_modal | exact Hp].
  - apply run_preserves; [apply Defensive_handle_modal | exact Hp].
Qed.

Lemma modal_source_iff_open_witness :
  modal_consistent blank /\
  modal_consistent
    (run Plain.handle
       [OpenVideo (VStr "abc123"); FilterVideos "sleep";
        OpenVideo (VStr EmptyString)] blank) /\
  modal_consistent
    (run (Defensive.handle ascii_toLowerCase)
       [OpenVideo (VStr "abc123"); CloseModal; OpenVideo VNull] blank).
Proof.
  destruct (modal_source_iff_open ascii_toLowerCase
              [OpenVideo (VStr "abc123"); FilterVideos "sleep";
               OpenVideo (VStr EmptyString)] "..." "..." blank)
    as [Hblank Hplain].
  destruct (modal_source_iff_open ascii_toLowerCase
              [OpenVideo (VStr "abc123"); CloseModal; OpenVideo VNull]
              "..." "..." blank) as [_ Hdefensive].
  split; [exact Hblank|]. split.
  - exact (proj1 (Hplain Hblank)).
  - exact (proj2 (Hdefensive Hblank)).
Defined.

Lemma Plain_handle_other k e p :
  is_event_of k e = false ->
  data_of k (Plain.handle e p) = data_of k p /\
  container_of k (Plain.handle e p) = container_of k p.
Proof.
  destruct k, e; try discriminate; intros _; plain_unfold; split; run_all.
Qed.

Lemma Defensive_handle_other lc k e p :
  is_event_of k e = false ->
  data_of k (Defensive.handle lc e p) = data_of k p /\
  container_of k (Defensive.handle lc e p) = container_of k p.
Proof.
  destruct k, e; try discriminate; intros _; defensive_unfold; split; run_all.
Qed.

Ltac load_view render_effect :=
  let o := fresh "o" in
  let Ho := fresh "Heffect" in
  intros Hdata Hcontainer; script_unfold;
  match goal with
  | r : fetch_outcome |- _ => destruct r as [|[|] [?|]]
  end;
  cbn [fetched json fst snd Defensive.check_ok negb]; try done;
  match goal with
  | |- context [get ?data ?key] => destruct (get data key)
  end; try done;
  cbn [articlesData videosData with_articlesData with_videosData];
  match goal with
  | |- context [with_articlesData ?v _] =>
      destruct (render_effect v) as (o & _ & Ho)
  | |- context [with_videosData ?v _] =>
      destruct (render_effect v) as (o & _ & Ho)
  end;
  rewrite !Ho; by destruct o.

Lemma Plain_handle_own k e p q :
  is_event_of k e = true ->
  data_of k p = data_of k q ->
  container_of k p = container_of k q ->
  data_of k (Plain.handle e p) = data_of k (Plain.handle e q) /\
  container_of k (Plain.handle e p) = container_of k (Plain.handle e q).
Proof.
  destruct k, e; try discriminate; intros _; simpl.
  - unfold Plain.loadArticles. load_view Plain_renderArticles_effect.
  - intros Hdata Hcontainer.
    destruct (Plain_filterArticles_effect category (articlesData q))
      as (o & _ & Ho).
    unfold exec. rewrite (Ho p Hdata), (Ho q eq_refl). by destruct o.
  - unfold Plain.loadVideos. load_view Plain_renderVideos_effect.
  - intros Hdata Hcontainer.
    destruct (Plain_filterVideos_effect category (videosData q))
      as (o & _ & Ho).
    unfold exec. rewrite (Ho p Hdata), (Ho q eq_refl). by destruct o.
Qed.

Lemma Defensive_handle_own lc k e p q :
  is_event_of k e = true ->
  data_of k p = data_of k q ->
  container_of k p = container_of k q ->
  data_of k (Defensive.handle lc e p) = data_of k (Defensive.handle lc e q) /\
  container_of k (Defensive.handle lc e p) =
    container_of k (Defensive.handle lc e q).
Proof.
  destruct k, e; try discriminate; intros _; simpl.
  - unfold Defensive.loadArticles.
    load_view Defensive_renderArticles_effect.
  - intros Hdata Hcontainer.
    destruct (Defensive_filterArticles_effect lc category (articlesData q))
      as (o & _ & Ho).
    unfold exec. rewrite (Ho p Hdata), (Ho q eq_refl). by destruct o.
  - unfold Defensive.loadVideos. load_view Defensive_renderVideos_effect.
  - intros Hdata Hcontainer.
    destruct (Defensive_filterVideos_effect lc category (videosData q))
      as (o & _ & Ho).
    unfold exec. rewrite (Ho p Hdata), (Ho q eq_refl). by destruct o.
Qed.

Lemma run_own_events (handle : event -> page -> page) (k : content) :
  (forall e p, is_event_of k e = false ->
     data_of k (handle e p) = data_of k p /\
     container_of k (handle e p) = container_of k p) ->
  (forall e p q, is_event_of k e = true ->
     data_of k p = data_of k q -> container_of k p = container_of k q ->
     data_of k (handle e p) = data_of k (handle e q) /\
     container_of k (handle e p) = container_of k (handle e q)) ->
  forall events p q,
    data_of k p = data_of k q -> container_of k p = container_of k q ->
    data_of k (run handle events p) =
      data_of k (run handle (List.filter (is_event_of k) events) q) /\
    container_of k (run handle events p) =
      container_of k (run handle (List.filter (is_event_of k) events) q).
Proof.
  intros Hother Hown events.
  induction events as [|e rest IH]; intros p q Hdata Hcontainer; [done|].
  simpl. destruct (is_event_of k e) eqn:He; simpl.
  - destruct (Hown e p q He Hdata Hcontainer). by apply IH.
  - destruct (Hother e p He) as [Hd Hc]. apply IH; congruence.
Qed.

(** X10.  The two kinds of content do not interfere.  After any sequence
    of events, the array and the container of a kind are what the events
    of that kind alone (its fetch and its filter clicks, in the same
    order) would have left: fetches and filters of the other kind and the
    modal have no influence on them. *)
Theorem kinds_do_not_interfere :
  forall (toLowerCase : string -> string) (k : content)
         (events : list event) (p : page),
    (data_of k (run Plain.handle events p) =
       data_of k (run Plain.handle (List.filter (is_event_of k) events) p) /\
     container_of k (run Plain.handle events p) =
       container_of k
         (run Plain.handle (List.filter (is_event_of k) events) p)) /\
    (data_of k (run (Defensive.handle toLowerCase) events p) =
       data_of k
         (run (Defensive.handle toLowerCase)
            (List.filter (is_event_of k) events) p) /\
     container_of k (run (Defensive.handle toLowerCase) events p) =
       container_of k
         (run (Defensive.handle toLowerCase)
            (List.filter (is_event_of k) events) p)).
Proof.
  intros lc k events p. split.
  - apply run_own_events; try done.
    + apply Plain_handle_other.
    + apply Plain_handle_own.
  - apply run_own_events; try done.
    + apply Defensive_handle_other.
    + apply Defensive_handle_own.
Qed.

(** ** Values that are not arrays, and pages with nothing loaded *)

(** X11.  What the renderers do with a value that is not an array.  In
    [src/web/script.js] the placeholder is shown when the value has a
    [length] equal to 0 (the empty string, say); otherwise the call throws
    a TypeError and the page stays as it was, in particular for
    [undefined] and [null].  The defensive copy also shows the placeholder
    for every falsy value, [undefined] and [null] included. *)
Theorem render_of_non_array :
  forall (v : value) (p : page),
    is_array v = false ->
    Plain.renderArticles v p =
      (if is_number (field "length" v) 0
       then (Normal tt, with_articles_container Plain.no_articles p)
       else (Thrown TypeError, p)) /\
    Plain.renderVideos v p =
      (if is_number (field "length" v) 0
       then (Normal tt, with_videos_container Plain.no_videos p)
       else (Thrown TypeError, p)) /\
    Defensive.renderArticles v p =
      (if negb (truthy v) || is_number (field "length" v) 0
       then (Normal tt, with_articles_container Defensive.no_articles p)
       else (Thrown TypeError, p)) /\
    Defensive.renderVideos v p =
      (if negb (truthy v) || is_number (field "length" v) 0
       then (Normal tt, with_videos_container Defensive.no_videos p)
       else (Thrown TypeError, p)).
Proof.
  intros v p Hv.
  unfold Plain.renderArticles, Plain.renderVideos, Defensive.renderArticles,
    Defensive.renderVideos, Defensive.missing_or_empty, field.
  script_unfold.
  destruct v as [| |b|n|s|elements|properties]; try discriminate; simpl.
  - done.
  - done.
  - by destruct b.
  - by destruct (Z.eqb (number_value n) 0).
  - destruct (String.eqb s EmptyString) eqn:Hs; simpl.
    + apply String.eqb_eq in Hs. by subst.
    + by destruct (Z.eqb (clamp (Z.of_nat (String.length s))) 0).
  - by destruct (is_number
                   (lookup_property "length" properties) 0).
Qed.

Lemma render_of_non_array_witness :
  is_array VUndefined = false /\
  Plain.renderArticles VUndefined blank = (Thrown TypeError, blank) /\
  Defensive.renderArticles VUndefined blank =
    (Normal tt, with_articles_container Defensive.no_articles blank).
Proof.
  destruct (render_of_non_array VUndefined blank eq_refl)
    as (Hplain & _ & Hdefensive & _).
  split; [reflexivity|]. split; [exact Hplain | exact Hdefensive].
Defined.

(** X12.  A filter click before anything is loaded.  On the page as the
    script sets it up, whatever markup the containers start with, a filter
    of [src/web/script.js] replaces that markup with the placeholder; a
    filter of the defensive copy returns at once and the markup stays. *)
Theorem filter_before_load :
  forall (toLowerCase : string -> string) (c articles_html videos_html : string),
    let p := initial_page articles_html videos_html in
    Plain.filterArticles c p =
      (Normal tt, with_articles_container Plain.no_articles p) /\
    Plain.filterVideos c p =
      (Normal tt, with_videos_container Plain.no_videos p) /\
    Defensive.filterArticles toLowerCase c p = (Normal tt, p) /\
    Defensive.filterVideos toLowerCase c p = (Normal tt, p).
Proof.
  intros lc c a v p.
  unfold Plain.filterArticles, Plain.filterVideos,
    Defensive.filterArticles, Defensive.filterVideos.
  script_unfold. simpl. by destruct (String.eqb c "all").
Qed.

(** X13.  After a document without the [articles] (resp. [videos])
    property.  In [src/web/script.js] the loader has stored [undefined],
    and from then on every call of the filter, for whatever category,
    throws a TypeError and leaves the error message in place.  In the
    defensive copy the loader has stored an empty array and every call of
    the filter returns without doing anything. *)
Theorem filter_after_missing_key :
  forall (toLowerCase : string -> string) (ok : bool)
         (properties : list (string * value)) (c : string) (p : page),
    (has_key "articles" properties = false ->
     let plain :=
       exec (Plain.loadArticles (Responded ok (Json (VObj properties)))) p in
     let defensive :=
       exec (Defensive.loadArticles
               (Responded true (Json (VObj properties)))) p in
     Plain.filterArticles c plain = (Thrown TypeError, plain) /\
     articles_container plain = Plain.articles_error /\
     Defensive.filterArticles toLowerCase c defensive =
       (Normal tt, defensive) /\
     articles_container defensive = Defensive.no_articles) /\
    (has_key "videos" properties = false ->
     let plain :=
       exec (Plain.loadVideos (Responded ok (Json (VObj properties)))) p in
     let defensive :=
       exec (Defensive.loadVideos
               (Responded true (Json (VObj properties)))) p in
     Plain.filterVideos c plain = (Thrown TypeError, plain) /\
     videos_container plain = Plain.videos_error /\
     Defensive.filterVideos toLowerCase c defensive =
       (Normal tt, defensive) /\
     videos_container defensive = Defensive.no_videos).
Proof.
  intros lc ok properties c p. split; intros Hkey%has_key_lookup;
    plain_unfold; defensive_unfold; script_simpl; rewrite Hkey; simpl;
    by destruct (String.eqb c "all").
Qed.

Lemma filter_after_missing_key_witness :
  has_key "articles" [("videos", VArr [])] = false /\
  Plain.filterArticles "all"
    (exec (Plain.loadArticles
             (Responded true (Json (VObj [("videos", VArr [])])))) blank) =
  (Thrown TypeError,
   exec (Plain.loadArticles
           (Responded true (Json (VObj [("videos", VArr [])])))) blank).
Proof.
  split; [reflexivity|].
  apply (filter_after_missing_key ascii_toLowerCase true
           [("videos", VArr [])] "all" blank).
  reflexivity.
Defined.

(** ** The two copies side by side *)

Lemma array_map_ext {B} (f g : value -> exn B) (items : list value) :
  Forall (fun a => f a = g a) items ->
  array_map f items = array_map g items.
Proof.
  induction 1 as [|a rest Ha _ IH]; [done|]. simpl. by rewrite Ha, IH.
Qed.

Lemma complete_article_card a :
  complete_article a = true ->
  Defensive.articleCard a = Plain.articleCard a.
Proof.
  unfold complete_article.
  intros ((((Ha & Hc)%andb_true_iff & Hi)%andb_true_iff
             & Ht)%andb_true_iff & He)%andb_true_iff.
  unfold Defensive.articleCard, Plain.articleCard.
  rewrite !(get_defined a) by done. cbn [exn_bind]. unfold or_else.
  by rewrite Hc, Hi, Ht, He.
Qed.

Lemma complete_video_card v :
  complete_video v = true ->
  Defensive.videoCard v = Plain.videoCard v.
Proof.
  unfold complete_video.
  intros (((((Hc & Ht)%andb_true_iff & Hy)%andb_true_iff
              & Hn)%andb_true_iff & Hd)%andb_true_iff & Hg)%andb_true_iff.
  assert (defined v = true) as Hv by (by destruct v).
  unfold Defensive.videoCard, Plain.videoCard.
  rewrite !(get_defined v) by done. cbn [exn_bind]. unfold or_else.
  rewrite Hc, Ht, Hy, Hn, Hd.
  by destruct (field "tags" v).
Qed.

(** X14.  On complete data the two copies render the same thing.  When
    no optional property of any item is missing or falsy (and videos
    carry their array of tags), [renderArticles] and [renderVideos] of the
    defensive copy leave exactly the page that those of
    [src/web/script.js] leave: the fall-backs change nothing. *)
Theorem copies_agree_on_complete_items :
  forall (items : list value) (p : page),
    (Forall (fun a => complete_article a = true) items ->
     Defensive.renderArticles (VArr items) p =
     Plain.renderArticles (VArr items) p) /\
    (Forall (fun v => complete_video v = true) items ->
     Defensive.renderVideos (VArr items) p =
     Plain.renderVideos (VArr items) p).
Proof.
  intros items p. split; intros Hall.
  - unfold Defensive.renderArticles, Plain.renderArticles.
    rewrite missing_or_empty_array. script_unfold.
    cbn [get as_array String.eqb Ascii.eqb Bool.eqb].
    rewrite is_number_length. destruct items; [done|].
    rewrite (array_map_ext Defensive.articleCard Plain.articleCard); [done|].
    eapply Forall_impl; [exact Hall | apply complete_article_card].
  - unfold Defensive.renderVideos, Plain.renderVideos.
    rewrite missing_or_empty_array. script_unfold.
    cbn [get as_array String.eqb Ascii.eqb Bool.eqb].
    rewrite is_number_length. destruct items; [done|].
    rewrite (array_map_ext Defensive.videoCard Plain.videoCard); [done|].
    eapply Forall_impl; [exact Hall | apply complete_video_card].
Qed.

Lemma copies_agree_on_complete_items_witness :
  Forall (fun a => complete_article a = true) [complete_sample_article] /\
  Defensive.renderArticles (VArr [complete_sample_article]) blank =
  Plain.renderArticles (VArr [complete_sample_article]) blank.
Proof.
  assert (Forall (fun a => complete_article a = true)
            [complete_sample_article]) as Hall by (repeat constructor).
  split; [exact Hall|].
  exact (proj1 (copies_agree_on_complete_items [complete_sample_article]
                  blank) Hall).
Defined.

(** ** [openArticle] of the defensive copy *)

Lemma array_find_objects id items :
  Forall (fun a => is_object a = true) items ->
  exists found,
    array_find (Defensive.id_matches id) items = Ok found /\
    truthy found = has_article id items.
Proof.
  induction 1 as [|a rest Ha _ (found & Hfind & Htruthy)].
  - by exists VUndefined.
  - destruct a as [| | | | | |properties]; try discriminate.
    unfold has_article in *. simpl.
    change (field "id" (VObj properties))
      with (lookup_property "id" properties).
    destruct (strict_equals (lookup_property "id" properties) id); simpl.
    + by exists (VObj properties).
    + by exists found.
Qed.

(** X15.  [openArticle] of the defensive copy raises its notice, once,
    exactly when some loaded article has the identifier it is given (the
    same value of the same type: the number 7 is not the text 7), and
    touches nothing else on the page; for an identifier of no loaded
    article it does nothing at all.  Should the array not be an array (it
    never is in this copy) the call throws a TypeError. *)
Theorem openArticle_notice :
  forall (id : primitive) (items : list value) (p : page),
    (articlesData p = VArr items ->
     Forall (fun a => is_object a = true) items ->
     Defensive.openArticle id p =
       (Normal tt,
        if has_article id items
        then with_alert Defensive.article_notice p else p)) /\
    (is_array (articlesData p) = false ->
     Defensive.openArticle id p = (Thrown TypeError, p)).
Proof.
  intros id items p. unfold Defensive.openArticle. script_unfold. split.
  - intros Hdata Hall. rewrite Hdata. cbn [as_array].
    destruct (array_find_objects id items Hall) as (found & -> & ->).
    by destruct (has_article id items).
  - intros Hdata. by destruct (articlesData p).
Qed.

Lemma openArticle_notice_witness :
  articlesData (with_articlesData (VArr [numbered_article]) blank) =
    VArr [numbered_article] /\
  Forall (fun a => is_object a = true) [numbered_article] /\
  Defensive.openArticle (PNum 7)
    (with_articlesData (VArr [numbered_article]) blank) =
    (Normal tt,
     with_alert Defensive.article_notice
       (with_articlesData (VArr [numbered_article]) blank)) /\
  Defensive.openArticle (PStr "7")
    (with_articlesData (VArr [numbered_article]) blank) =
    (Normal tt, with_articlesData (VArr [numbered_article]) blank) /\
  is_array (articlesData (with_articlesData VUndefined blank)) = false /\
  Defensive.openArticle (PNum 7) (with_articlesData VUndefined blank) =
    (Thrown TypeError, with_articlesData VUndefined blank).
Proof.
  assert (Forall (fun a => is_object a = true) [numbered_article]) as Hall
    by (repeat constructor).
  split; [reflexivity|]. split; [exact Hall|]. split.
  - exact (proj1 (openArticle_notice (PNum 7) [numbered_article]
                    (with_articlesData (VArr [numbered_article]) blank))
             eq_refl Hall).
  - split.
    + exact (proj1 (openArticle_notice (PStr "7") [numbered_article]
                      (with_articlesData (VArr [numbered_article]) blank))
               eq_refl Hall).
    + split; [reflexivity|].
      exact (proj2 (openArticle_notice (PNum 7) []
                      (with_articlesData VUndefined blank)) eq_refl).
Defined.
